(** * useGaitMetrics: the live gait-telemetry hook and its endpoint resolver

    A shallow embedding of [src/lib/apiConfig.ts] (the endpoint resolver
    [WS_URL]) and of the latest revision of the [useGaitMetrics] hook
    (streaming handlers, historical backfill, scoring client), followed by
    the properties of the specification that concern them.

    JavaScript values are modelled as they are at run time: numbers are
    IEEE-754 binary64 values ([spec_float] with precision 53), a parsed
    JSON document is a tree of values, [a || b] tests truthiness, and a
    property read on [null] throws.  The few platform functions whose
    result is implementation-defined ([Date.parse], [Date.now], the
    conversion of an object to a primitive, number/string conversions) are
    fields of a [Platform] record that the definitions take as argument. *)

From Stdlib Require Import ZArith List String Ascii Bool Lia.
From Stdlib Require Import Floats.SpecFloat DecimalString.
Import ListNotations.

Local Open Scope string_scope.
Local Open Scope Z_scope.

Local Set Warnings "-register-all".

(* ================================================================== *)
(** ** JavaScript values *)
(* ================================================================== *)

Module JS.

(** A JavaScript number: IEEE-754 binary64. *)
Definition number : Type := spec_float.

Definition prec : Z := 53.
Definition emax : Z := 1024.

Definition ofZ (z : Z) : number := binary_normalize prec emax z 0 false.
Definition nadd : number -> number -> number := SFadd prec emax.
Definition ndiv : number -> number -> number := SFdiv prec emax.

(** The number a decimal literal [n/d] denotes (both [n] and [d] are
    exact, and the division rounds to nearest, so this is the binary64
    value closest to the decimal). *)
Definition dec (n d : Z) : number := ndiv (ofZ n) (ofZ d).

Definition NaN : number := S754_nan.
Definition zero : number := S754_zero false.

Inductive Value : Type :=
| VUndef
| VNull
| VBool (b : bool)
| VNum (x : number)
| VStr (s : string)
| VArr (items : list Value)
| VObj (fields : list (string * Value)).

Inductive Exn : Type :=
| TypeError
| SyntaxError
| NetworkError
| HFApiFailed (status : Z).

Inductive Result (A : Type) : Type :=
| Ok (a : A)
| Throw (e : Exn).
Arguments Ok {A} a.
Arguments Throw {A} e.

(** [ToBoolean]: [undefined], [null], [false], [+0], [-0], [NaN] and the
    empty string are falsy; everything else is truthy. *)
Definition ToBoolean (v : Value) : bool :=
  match v with
  | VUndef | VNull => false
  | VBool b => b
  | VNum (S754_zero _) | VNum S754_nan => false
  | VNum _ => true
  | VStr s => negb (String.eqb s "")
  | VArr _ | VObj _ => true
  end.

(** [a || b] for a right operand without effects. *)
Definition or (a b : Value) : Value := if ToBoolean a then a else b.

Fixpoint lookup (k : string) (fields : list (string * Value)) : Value :=
  match fields with
  | [] => VUndef
  | (k', v) :: rest => if String.eqb k k' then v else lookup k rest
  end.

(** [v.k] for a property name [k] that is neither an array index nor a
    member of a built-in prototype (all the names this hook reads by
    name are such): it throws on [undefined] and [null], finds own
    properties on objects and is [undefined] on everything else. *)
Definition get (v : Value) (k : string) : Result Value :=
  match v with
  | VUndef | VNull => Throw TypeError
  | VObj fields => Ok (lookup k fields)
  | _ => Ok VUndef
  end.

(** ['k' in v] for an object [v] and such a name [k]. *)
Definition has (v : Value) (k : string) : bool :=
  match v with
  | VObj fields => existsb (fun kv => String.eqb k (fst kv)) fields
  | _ => false
  end.

Definition index_key (i : nat) : string :=
  NilEmpty.string_of_uint (Nat.to_uint i).

(** [v?.[i]]: [undefined] on [undefined] and [null] (optional chaining),
    the element on arrays, the one-character string on strings, the
    property named by the decimal index on objects. *)
Definition opt_index (v : Value) (i : nat) : Value :=
  match v with
  | VArr items => nth i items VUndef
  | VStr s => match String.get i s with
              | Some c => VStr (String c EmptyString)
              | None => VUndef
              end
  | VObj fields => lookup (index_key i) fields
  | _ => VUndef
  end.

(** [typeof v === 'object'] *)
Definition typeof_object (v : Value) : bool :=
  match v with
  | VNull | VArr _ | VObj _ => true
  | _ => false
  end.

Definition is_primitive (v : Value) : bool :=
  match v with
  | VArr _ | VObj _ => false
  | _ => true
  end.

(** The platform functions whose results this development does not fix. *)
Record Platform : Type := {
  (** the value the k-th call of [Date.now()] returns *)
  Date_now : nat -> number;
  (** [Date.parse] on a string: a time value or [NaN] *)
  Date_parse : string -> number;
  (** [OrdinaryToPrimitive] on an array or object ([valueOf], then
      [toString]); [None] when it throws a [TypeError] *)
  ObjectToPrimitive : Value -> option Value;
  (** [Number::toString] *)
  Number_toString : number -> string;
  (** [StringToNumber] *)
  StringToNumber : string -> number;
  (** whether [new WebSocket(url)] returns a socket; it throws otherwise *)
  WebSocket_accepts : string -> bool
}.

Section Conversions.
Variable P : Platform.

Definition ToPrimitive (v : Value) : Result Value :=
  match v with
  | VArr _ | VObj _ =>
      match ObjectToPrimitive P v with
      | Some p => if is_primitive p then Ok p else Throw TypeError
      | None => Throw TypeError
      end
  | _ => Ok v
  end.

(** [ToNumber] and [ToString] on a primitive value. *)
Definition PrimToNumber (p : Value) : number :=
  match p with
  | VUndef => NaN
  | VNull => zero
  | VBool true => ofZ 1
  | VBool false => zero
  | VNum x => x
  | VStr s => StringToNumber P s
  | VArr _ | VObj _ => NaN
  end.

Definition PrimToString (p : Value) : string :=
  match p with
  | VUndef => "undefined"
  | VNull => "null"
  | VBool true => "true"
  | VBool false => "false"
  | VNum x => Number_toString P x
  | VStr s => s
  | VArr _ | VObj _ => ""
  end.

Definition is_string (v : Value) : bool :=
  match v with VStr _ => true | _ => false end.

(** [a + b] *)
Definition add (a b : Value) : Result Value :=
  match ToPrimitive a with
  | Throw e => Throw e
  | Ok pa =>
      match ToPrimitive b with
      | Throw e => Throw e
      | Ok pb =>
          if is_string pa || is_string pb
          then Ok (VStr (PrimToString pa ++ PrimToString pb))
          else Ok (VNum (nadd (PrimToNumber pa) (PrimToNumber pb)))
      end
  end.

(** [a / b] *)
Definition div (a b : Value) : Result Value :=
  match ToPrimitive a with
  | Throw e => Throw e
  | Ok pa =>
      match ToPrimitive b with
      | Throw e => Throw e
      | Ok pb => Ok (VNum (ndiv (PrimToNumber pa) (PrimToNumber pb)))
      end
  end.

(** [TimeClip]: [NaN] outside +-8.64e15 ms, otherwise the number
    truncated towards zero, with [-0] turned into [+0]. *)
Definition TimeClip (t : number) : number :=
  match t with
  | S754_zero _ => zero
  | S754_finite s m e =>
      if SFltb (ofZ 8640000000000000) (SFabs t) then NaN
      else if 0 <=? e then t
      else
        let q := Z.shiftr (Zpos m) (- e) in
        if q =? 0 then zero else ofZ (cond_Zopp s q)
  | _ => NaN
  end.

(** The time value of [new Date(v)]: a string is parsed as by
    [Date.parse], anything else is converted to a number. *)
Definition time_value (p : Value) : number :=
  match p with
  | VStr s => Date_parse P s
  | _ => PrimToNumber p
  end.

(** [new Date(v).getTime()] *)
Definition Date_getTime (v : Value) : Result number :=
  match ToPrimitive v with
  | Throw e => Throw e
  | Ok p => Ok (TimeClip (time_value p))
  end.

End Conversions.

End JS.

(* ================================================================== *)
(** ** src/lib/apiConfig.ts: the endpoint resolver *)
(* ================================================================== *)

Module ApiConfig.

Fixpoint skip (n : nat) (s : string) : string :=
  match n, s with
  | O, _ => s
  | S n', String _ rest => skip n' rest
  | S _, EmptyString => EmptyString
  end.

(** [s.startsWith(p)] *)
Fixpoint startsWith (p s : string) : bool :=
  match p with
  | EmptyString => true
  | String a p' =>
      match s with
      | EmptyString => false
      | String b s' => Ascii.eqb a b && startsWith p' s'
      end
  end.

(** The regular expression [/^https?:\/\//] tried at the start of [s]:
    the length of what it matches.  After [http] the optional [s] is
    greedy; when the rest does not follow it, the matcher backtracks and
    tries without it. *)
Definition match_scheme (s : string) : option nat :=
  if startsWith "http" s then
    let r := skip 4 s in
    if startsWith "s" r && startsWith "://" (skip 1 r) then Some 8%nat
    else if startsWith "://" r then Some 7%nat
    else None
  else None.

(** [s.replace(/^https?:\/\//, r)] for a replacement [r] without [$]. *)
Definition replace_scheme (s r : string) : string :=
  match match_scheme s with
  | Some n => r ++ skip n s
  | None => s
  end.

(** [import.meta.env.VITE_API_URL || 'http://localhost:5000'] *)
Definition API_BASE (VITE_API_URL : option string) : string :=
  match VITE_API_URL with
  | Some s => if String.eqb s "" then "http://localhost:5000" else s
  | None => "http://localhost:5000"
  end.

Definition WS_URL (API_BASE : string) : string :=
  replace_scheme API_BASE
    (if startsWith "https://" API_BASE then "wss://" else "ws://").

End ApiConfig.

(* ================================================================== *)
(** ** The useGaitMetrics hook *)
(* ================================================================== *)

Module Hook.
Import JS.

Record GaitDataEntry : Type := {
  cadence : Value;
  equilibriumScore : Value;
  frequency : Value;
  posturalSway : Value;
  sensors : list Value;
  stepWidth : number;
  steps : Value;
  strideLength : Value;
  kneeForce : Value;
  timestamp : number;
  walkingSpeed : Value
}.

Record MLGaitResult : Type := {
  score : Value;
  confidence : Value
}.

Inductive Error : Type :=
| ConfigError
| WebSocketFailed
| Caught (e : Exn).

(** Arrays are objects held by reference: [historicalData.current] and
    [state.data] hold locations of a store.  A later binding of a
    location shadows the earlier ones. *)
Definition loc : Type := nat.
Definition Heap : Type := list (loc * list GaitDataEntry).

Fixpoint deref (h : Heap) (l : loc) : list GaitDataEntry :=
  match h with
  | [] => []
  | (l', a) :: rest => if Nat.eqb l l' then a else deref rest l
  end.

Definition store (h : Heap) (l : loc) (a : list GaitDataEntry) : Heap :=
  (l, a) :: h.

Record GaitMetricsState : Type := {
  data : option loc;
  loading : bool;
  error : option Error;
  isConnected : bool;
  mlResult : option MLGaitResult
}.

Inductive ReadyState : Type := CONNECTING | OPEN | CLOSING | CLOSED.

(** Everything the hook owns or has set in motion.  Console output is
    not part of the model. *)
Record World : Type := mkWorld {
  state : GaitMetricsState;
  heap : Heap;
  next_loc : loc;
  (** [historicalData.current] *)
  historicalData : loc;
  (** [wsRef.current]: an index into [sockets] *)
  wsRef : option nat;
  (** the [WebSocket] objects created so far *)
  sockets : list ReadyState;
  (** the delays of the pending [setTimeout(connectWebSocket, _)] calls *)
  timers : list Z;
  (** the number of [Date.now()] calls made so far *)
  ticks : nat;
  (** the historical request is in flight *)
  historicalPending : bool;
  (** the feature vector of the scoring request in flight *)
  posted : option (list Value)
}.

Definition setState (f : GaitMetricsState -> GaitMetricsState) (w : World)
  : World :=
  mkWorld (f (state w)) (heap w) (next_loc w) (historicalData w) (wsRef w)
          (sockets w) (timers w) (ticks w) (historicalPending w) (posted w).

Definition set_heap (h : Heap) (w : World) : World :=
  mkWorld (state w) h (next_loc w) (historicalData w) (wsRef w)
          (sockets w) (timers w) (ticks w) (historicalPending w) (posted w).

Definition set_next_loc (n : loc) (w : World) : World :=
  mkWorld (state w) (heap w) n (historicalData w) (wsRef w)
          (sockets w) (timers w) (ticks w) (historicalPending w) (posted w).

Definition set_historicalData (l : loc) (w : World) : World :=
  mkWorld (state w) (heap w) (next_loc w) l (wsRef w)
          (sockets w) (timers w) (ticks w) (historicalPending w) (posted w).

Definition set_wsRef (r : option nat) (w : World) : World :=
  mkWorld (state w) (heap w) (next_loc w) (historicalData w) r
          (sockets w) (timers w) (ticks w) (historicalPending w) (posted w).

Definition set_sockets (s : list ReadyState) (w : World) : World :=
  mkWorld (state w) (heap w) (next_loc w) (historicalData w) (wsRef w)
          s (timers w) (ticks w) (historicalPending w) (posted w).

Definition set_timers (t : list Z) (w : World) : World :=
  mkWorld (state w) (heap w) (next_loc w) (historicalData w) (wsRef w)
          (sockets w) t (ticks w) (historicalPending w) (posted w).

Definition set_ticks (k : nat) (w : World) : World :=
  mkWorld (state w) (heap w) (next_loc w) (historicalData w) (wsRef w)
          (sockets w) (timers w) k (historicalPending w) (posted w).

Definition set_historicalPending (b : bool) (w : World) : World :=
  mkWorld (state w) (heap w) (next_loc w) (historicalData w) (wsRef w)
          (sockets w) (timers w) (ticks w) b (posted w).

Definition set_posted (p : option (list Value)) (w : World) : World :=
  mkWorld (state w) (heap w) (next_loc w) (historicalData w) (wsRef w)
          (sockets w) (timers w) (ticks w) (historicalPending w) p.

(** The updaters handed to [setState]: [{ ...prev, field: value }]. *)
Definition with_data (d : option loc) (s : GaitMetricsState) :=
  {| data := d; loading := loading s; error := error s;
     isConnected := isConnected s; mlResult := mlResult s |}.
Definition with_loading (b : bool) (s : GaitMetricsState) :=
  {| data := data s; loading := b; error := error s;
     isConnected := isConnected s; mlResult := mlResult s |}.
Definition with_error (e : option Error) (s : GaitMetricsState) :=
  {| data := data s; loading := loading s; error := e;
     isConnected := isConnected s; mlResult := mlResult s |}.
Definition with_isConnected (b : bool) (s : GaitMetricsState) :=
  {| data := data s; loading := loading s; error := error s;
     isConnected := b; mlResult := mlResult s |}.
Definition with_mlResult (r : option MLGaitResult) (s : GaitMetricsState) :=
  {| data := data s; loading := loading s; error := error s;
     isConnected := isConnected s; mlResult := r |}.

(** The rolling history buffer: the array [historicalData.current]. *)
Definition buffer (w : World) : list GaitDataEntry :=
  deref (heap w) (historicalData w).

(** What the consumer sees in [state.data]. *)
Definition published (w : World) : option (list GaitDataEntry) :=
  option_map (deref (heap w)) (data (state w)).

(** A fresh array with the given contents. *)
Definition alloc (a : list GaitDataEntry) (w : World) : loc * World :=
  (next_loc w,
   set_next_loc (S (next_loc w)) (set_heap (store (heap w) (next_loc w) a) w)).

(** [arr.unshift(e)] and [arr.pop()] on the array at a location. *)
Definition unshift (l : loc) (e : GaitDataEntry) (w : World) : World :=
  set_heap (store (heap w) l (e :: deref (heap w) l)) w.

Definition pop (l : loc) (w : World) : World :=
  set_heap (store (heap w) l (removelast (deref (heap w) l))) w.

(** [arr.slice(-n)]: the last [n] elements, all of them when there are
    fewer. *)
Definition slice_last {A : Type} (n : nat) (l : list A) : list A :=
  skipn (List.length l - n) l.

(** *** Computations that read the clock and may throw *)

Definition M (A : Type) : Type := nat -> Result A * nat.

Definition ret {A : Type} (a : A) : M A := fun k => (Ok a, k).

Definition bind {A B : Type} (c : M A) (f : A -> M B) : M B :=
  fun k =>
    match c k with
    | (Ok a, k') => f a k'
    | (Throw e, k') => (Throw e, k')
    end.

Definition lift {A : Type} (r : Result A) : M A := fun k => (r, k).

Notation "x <- c ;; f" := (bind c (fun x => f))
  (at level 61, c at next level, right associativity).

Fixpoint mapM {A B : Type} (f : A -> M B) (l : list A) : M (list B) :=
  match l with
  | [] => ret []
  | x :: rest =>
      y <- f x ;;
      ys <- mapM f rest ;;
      ret (y :: ys)
  end.

(** [l.reduce(f, init)] *)
Fixpoint reduce {A B : Type} (f : B -> A -> Result B) (l : list A) (init : B)
  : Result B :=
  match l with
  | [] => Ok init
  | x :: rest =>
      match f init x with
      | Ok acc => reduce f rest acc
      | Throw e => Throw e
      end
  end.

Section WithPlatform.
Variable P : Platform.

(** [Date.now()] *)
Definition now : M number := fun k => (Ok (Date_now P k), S k).

(** [v || Date.now()] *)
Definition or_now (v : Value) : M Value :=
  if ToBoolean v then ret v else (n <- now ;; ret (VNum n)).

(** The object literal bound to [gaitEntry] in [ws.onmessage]. *)
Definition gaitEntry (data : Value) : M GaitDataEntry :=
  cadence <- lift (get data "cadence") ;;
  equilibrium <- lift (get data "equilibrium") ;;
  frequency <- lift (get data "frequency") ;;
  posturalSway <- lift (get data "posturalSway") ;;
  stepCount <- lift (get data "stepCount") ;;
  strideLength <- lift (get data "strideLength") ;;
  kneeForce <- lift (get data "kneeForce") ;;
  ts <- lift (get data "timestamp") ;;
  arg <- or_now ts ;;
  time <- lift (Date_getTime P arg) ;;
  walkingSpeed <- lift (get data "walkingSpeed") ;;
  ret {| cadence := or cadence (VNum zero);
         equilibriumScore := or equilibrium (VNum zero);
         frequency := or frequency (VNum zero);
         posturalSway := or posturalSway (VNum zero);
         sensors := [];
         stepWidth := zero;
         steps := or stepCount (VNum zero);
         strideLength := or strideLength (VNum zero);
         kneeForce := or kneeForce (VNum zero);
         timestamp := time;
         walkingSpeed := or walkingSpeed (VNum zero) |}.

(** The callback of [result.data.map] in [fetchHistoricalData]. *)
Definition mapItem (item : Value) : M GaitDataEntry :=
  cadence <- lift (get item "cadence") ;;
  equilibrium <- lift (get item "equilibrium") ;;
  frequency <- lift (get item "frequency") ;;
  posturalSway <- lift (get item "posturalSway") ;;
  stepCount <- lift (get item "stepCount") ;;
  strideLength <- lift (get item "strideLength") ;;
  kneeForce <- lift (get item "kneeForce") ;;
  ts <- lift (get item "timestamp") ;;
  arg <- or_now ts ;;
  time <- lift (Date_getTime P arg) ;;
  walkingSpeed <- lift (get item "walkingSpeed") ;;
  ret {| cadence := or cadence (VNum zero);
         equilibriumScore := or equilibrium (VNum zero);
         frequency := or frequency (VNum zero);
         posturalSway := or posturalSway (VNum zero);
         sensors := [];
         stepWidth := zero;
         steps := or stepCount (VNum zero);
         strideLength := or strideLength (VNum zero);
         kneeForce := or kneeForce (VNum zero);
         timestamp := time;
         walkingSpeed := or walkingSpeed (VNum zero) |}.

(** *** The streaming connection *)

(** The test of [ws.onmessage] that recognises a handshake message. *)
Definition is_connection (parsedData : Value) : bool :=
  typeof_object parsedData
  && negb (match parsedData with VNull => true | _ => false end)
  && has parsedData "type"
  && match get parsedData "type" with
     | Ok (VStr s) => String.eqb s "connection"
     | _ => false
     end.

Definition onopen (w : World) : World :=
  setState (fun prev => with_loading false (with_isConnected true prev)) w.

(** [ws.onmessage], on the outcome of [JSON.parse(event.data)]. *)
Definition onmessage (parsed : Result Value) (w : World) : World :=
  match parsed with
  | Throw _ => w
  | Ok parsedData =>
      if is_connection parsedData then w
      else
        match gaitEntry parsedData (ticks w) with
        | (Throw _, k) => set_ticks k w
        | (Ok entry, k) =>
            let w1 := unshift (historicalData w) entry (set_ticks k w) in
            let w2 :=
              if (20 <? List.length (buffer w1))%nat
              then pop (historicalData w1) w1 else w1 in
            setState (fun prev =>
                        with_loading false
                          (with_data (Some (historicalData w2)) prev)) w2
        end
  end.

Definition onclose (w : World) : World :=
  let w1 := setState (fun prev => with_isConnected false prev) w in
  set_timers (timers w1 ++ [3000]) w1.

Definition onerror (w : World) : World :=
  setState (fun prev => with_error (Some WebSocketFailed) prev) w.

Definition connectWebSocket (WS_URL : string) (w : World) : World :=
  if String.eqb WS_URL "" then w
  else if WebSocket_accepts P WS_URL then
    let ws := List.length (sockets w) in
    set_wsRef (Some ws) (set_sockets (sockets w ++ [CONNECTING]) w)
  else w.

(** Whether [connectWebSocket()] ends by throwing: the URL is not empty
    and [new WebSocket] refuses it.  The world is then as it was, and
    the exception goes to the caller. *)
Definition connectWebSocket_throws (WS_URL : string) : bool :=
  negb (String.eqb WS_URL "") && negb (WebSocket_accepts P WS_URL).

Fixpoint update {A : Type} (i : nat) (f : A -> A) (l : list A) : list A :=
  match l, i with
  | [], _ => []
  | x :: rest, O => f x :: rest
  | x :: rest, S i' => x :: update i' f rest
  end.

Fixpoint remove_nth {A : Type} (i : nat) (l : list A) : list A :=
  match l, i with
  | [], _ => []
  | _ :: rest, O => rest
  | x :: rest, S i' => x :: remove_nth i' rest
  end.

(** [ws.close()] *)
Definition close (s : ReadyState) : ReadyState :=
  match s with
  | CONNECTING | OPEN => CLOSING
  | CLOSING | CLOSED => s
  end.

(** The cleanup the first effect returns. *)
Definition cleanup (w : World) : World :=
  match wsRef w with
  | Some ws => set_sockets (update ws close (sockets w)) w
  | None => w
  end.

(** *** The scoring client *)

(** How a [fetch] ends: it rejects, or it resolves with a response whose
    [json()] resolves with a parsed body or rejects. *)
Inductive FetchOutcome : Type :=
| Rejected (e : Exn)
| Response (ok : bool) (status : Z) (json : Result Value).

Definition defaultSample (t : number) : GaitDataEntry :=
  {| cadence := VNum (ofZ 100);
     walkingSpeed := VNum (dec 12 10);
     strideLength := VNum (dec 7 10);
     equilibriumScore := VNum (dec 8 10);
     frequency := VNum (dec 15 10);
     posturalSway := VNum (dec 1 10);
     kneeForce := VNum (ofZ 50);
     timestamp := t;
     steps := VNum zero;
     stepWidth := zero;
     sensors := [] |}.

(** [useData.reduce((sum, d) => sum + d.f, 0) / useData.length] *)
Definition average (f : GaitDataEntry -> Value) (useData : list GaitDataEntry)
  : Result Value :=
  match reduce (fun sum d => add P sum (f d)) useData (VNum zero) with
  | Ok sum => div P sum (VNum (ofZ (Z.of_nat (List.length useData))))
  | Throw e => Throw e
  end.

(** The array [features] of [fetchMLGaitScore]. *)
Definition features (data : list GaitDataEntry) : M (list Value) :=
  useData <- (if (0 <? List.length data)%nat then ret data
              else (t <- now ;; ret [defaultSample t])) ;;
  avgCadence <- lift (average cadence useData) ;;
  avgWalkingSpeed <- lift (average walkingSpeed useData) ;;
  avgStrideLength <- lift (average strideLength useData) ;;
  avgEquilibrium <- lift (average equilibriumScore useData) ;;
  avgFrequency <- lift (average frequency useData) ;;
  avgPosturalSway <- lift (average posturalSway useData) ;;
  avgKneeForce <- lift (average kneeForce useData) ;;
  ret [avgCadence; avgWalkingSpeed; avgStrideLength; avgEquilibrium;
       avgFrequency; avgPosturalSway; avgKneeForce].

(** [fetchMLGaitScore] up to its [fetch]: the features are computed
    outside the [try], so an exception there rejects the call and nothing
    is posted. *)
Definition fetchMLGaitScore_request (data : list GaitDataEntry) (w : World)
  : World :=
  match features data (ticks w) with
  | (Ok fs, k) => set_posted (Some fs) (set_ticks k w)
  | (Throw _, k) => set_ticks k w
  end.

Definition fallback : MLGaitResult :=
  {| score := VNum (ofZ 4); confidence := VNum (dec 85 100) |}.

(** What [fetchMLGaitScore] returns, by the outcome of its [fetch]. *)
Definition fetchMLGaitScore_result (o : FetchOutcome) : MLGaitResult :=
  match o with
  | Rejected _ => fallback
  | Response false _ _ => fallback
  | Response true _ (Throw _) => fallback
  | Response true _ (Ok result) =>
      match get result "data" with
      | Throw _ => fallback
      | Ok d =>
          {| score := or (opt_index d 0) (VNum (ofZ 4));
             confidence := or (opt_index d 1) (VNum (dec 85 100)) |}
      end
  end.

(** *** The historical backfill *)

(** [historicalData.current = a; setState({ ...prev, data:
    historicalData.current, loading: false })] for a new array [a]. *)
Definition install (a : list GaitDataEntry) (w : World) : World :=
  let (l, w1) := alloc a w in
  let w2 := set_historicalData l w1 in
  setState (fun prev => with_loading false (with_data (Some l) prev)) w2.

(** [historicalData.current = []; setState({ ...prev, data: [],
    loading: false })]: the two array literals are two arrays. *)
Definition install_empty (w : World) : World :=
  let (l1, w1) := alloc [] w in
  let w2 := set_historicalData l1 w1 in
  let (l2, w3) := alloc [] w2 in
  setState (fun prev => with_loading false (with_data (Some l2) prev)) w3.

(** The [catch] block of [fetchHistoricalData]. *)
Definition catch_historical (e : Exn) (w : World) : World :=
  install_empty
    (setState (fun prev =>
                 with_loading false (with_error (Some (Caught e)) prev)) w).

(** The body of [if (response.ok)] up to the choice of the branch:
    [Some mappedData] in the branch of a success envelope, [None] in the
    [else] branch. *)
Definition envelope (result : Value) : M (option (list GaitDataEntry)) :=
  success <- lift (get result "success") ;;
  cond <- (if ToBoolean success then lift (get result "data")
           else ret success) ;;
  if ToBoolean cond then
    d <- lift (get result "data") ;;
    match d with
    | VArr items =>
        mapped <- mapM mapItem items ;;
        ret (Some (rev mapped))
    | _ => lift (Throw TypeError)
    end
  else ret None.

(** [fetchHistoricalData] from the moment its request has ended. *)
Definition fetchHistoricalData_resolved (o : FetchOutcome) (w : World)
  : World :=
  let w1 :=
    match o with
    | Rejected e => catch_historical e w
    | Response false _ _ => w
    | Response true _ (Throw e) => catch_historical e w
    | Response true _ (Ok result) =>
        match envelope result (ticks w) with
        | (Ok (Some mappedData), k) =>
            install (slice_last 20 mappedData) (set_ticks k w)
        | (Ok None, k) => install_empty (set_ticks k w)
        | (Throw e, k) => catch_historical e (set_ticks k w)
        end
    end in
  fetchMLGaitScore_request (buffer w1) w1.

(** [const mlResult = await fetchMLGaitScore(...); setState(...)] *)
Definition scoring_resolved (o : FetchOutcome) (w : World) : World :=
  setState (fun prev =>
              with_mlResult (Some (fetchMLGaitScore_result o)) prev)
           (set_posted None w).

(** *** The life of one mounted hook *)

Definition initialState : GaitMetricsState :=
  {| data := None; loading := true; error := None;
     isConnected := false; mlResult := None |}.

(** [useRef<GaitDataEntry[]>([])] is the array at location 0. *)
Definition initialWorld : World :=
  mkWorld initialState [(0%nat, [])] 1%nat 0%nat None [] [] 0%nat false None.

Definition checkConfig (API_BASE WS_URL : string) (w : World) : World :=
  if String.eqb API_BASE "" || String.eqb WS_URL "" then
    setState (fun prev =>
                with_loading false (with_error (Some ConfigError) prev)) w
  else w.

(** The three effects, run once when the hook mounts: the configuration
    check, [connectWebSocket()], and [fetchHistoricalData()], which
    returns at once when [API_BASE] is empty and otherwise leaves its
    request in flight.  When [connectWebSocket()] throws, the exception
    leaves the second effect and the third effect is not run, so no
    historical request is sent. *)
Definition mount (API_BASE : string) : World :=
  let WS_URL := ApiConfig.WS_URL API_BASE in
  let w1 := checkConfig API_BASE WS_URL initialWorld in
  let w2 := connectWebSocket WS_URL w1 in
  if connectWebSocket_throws WS_URL then w2
  else if String.eqb API_BASE "" then w2
  else set_historicalPending true w2.

Inductive Event : Type :=
| EvOpen (ws : nat)
| EvMessage (ws : nat) (parsed : Result Value)
| EvError (ws : nat)
| EvClose (ws : nat)
| EvTimer (i : nat)
| EvHistorical (o : FetchOutcome)
| EvScoring (o : FetchOutcome)
| EvUnmount.

Definition readyState (w : World) (ws : nat) : ReadyState :=
  nth ws (sockets w) CLOSED.

Definition is_closed (s : ReadyState) : bool :=
  match s with CLOSED => true | _ => false end.

(** One turn of the event loop; [None] when the platform cannot deliver
    the event in this world: a socket opens once, receives messages only
    while open and closes once; a timer fires only while it is pending;
    a request ends only while it is in flight. *)
Definition step (API_BASE : string) (ev : Event) (w : World) : option World :=
  match ev with
  | EvOpen ws =>
      match readyState w ws with
      | CONNECTING =>
          Some (onopen (set_sockets (update ws (fun _ => OPEN) (sockets w)) w))
      | _ => None
      end
  | EvMessage ws parsed =>
      match readyState w ws with
      | OPEN => Some (onmessage parsed w)
      | _ => None
      end
  | EvError ws =>
      if is_closed (readyState w ws) then None else Some (onerror w)
  | EvClose ws =>
      if is_closed (readyState w ws) then None
      else
        Some (onclose
                (set_sockets (update ws (fun _ => CLOSED) (sockets w)) w))
  | EvTimer i =>
      if (i <? List.length (timers w))%nat then
        Some (connectWebSocket (ApiConfig.WS_URL API_BASE)
                (set_timers (remove_nth i (timers w)) w))
      else None
  | EvHistorical o =>
      if historicalPending w then
        Some (fetchHistoricalData_resolved o (set_historicalPending false w))
      else None
  | EvScoring o =>
      match posted w with
      | Some _ => Some (scoring_resolved o w)
      | None => None
      end
  | EvUnmount => Some (cleanup w)
  end.

Fixpoint run (API_BASE : string) (evs : list Event) (w : World)
  : option World :=
  match evs with
  | [] => Some w
  | ev :: rest =>
      match step API_BASE ev w with
      | Some w' => run API_BASE rest w'
      | None => None
      end
  end.

(** The messages [msgs], delivered in order to an open socket. *)
Definition deliver (msgs : list (Result Value)) (w : World) : World :=
  fold_left (fun w' parsed => onmessage parsed w') msgs w.

End WithPlatform.

(** *** Vocabulary of the statements *)

(** The value of a property of a raw record, [undefined] when absent. *)
Definition field (raw : Value) (k : string) : Value :=
  match get raw k with
  | Ok v => v
  | Throw _ => VUndef
  end.

Definition is_number (v : Value) : bool :=
  match v with VNum _ => true | _ => false end.

(** The numeric properties of a backend record, and the fields of the
    canonical record they feed. *)
Definition numeric_inputs : list string :=
  ["cadence"; "equilibrium"; "frequency"; "posturalSway"; "stepCount";
   "strideLength"; "kneeForce"; "walkingSpeed"].

Definition numeric_outputs (e : GaitDataEntry) : list Value :=
  [cadence e; equilibriumScore e; frequency e; posturalSway e; steps e;
   strideLength e; kneeForce e; walkingSpeed e].

(** The seven features of a record, in the order they are submitted. *)
Definition feature_fields : list (GaitDataEntry -> Value) :=
  [cadence; walkingSpeed; strideLength; equilibriumScore; frequency;
   posturalSway; kneeForce].

Definition numeric_features (e : GaitDataEntry) : bool :=
  forallb (fun f => is_number (f e)) feature_fields.

Definition to_number (v : Value) : number :=
  match v with VNum x => x | _ => NaN end.

(** The mean as the specification words it: the sum of the feature over
    the [n] records, taken in buffer order, divided by [n]. *)
Definition mean (f : GaitDataEntry -> Value) (l : list GaitDataEntry)
  : number :=
  ndiv (fold_left nadd (map (fun d => to_number (f d)) l) zero)
       (ofZ (Z.of_nat (List.length l))).

(** The sockets that have not closed yet. *)
Definition count_live (ss : list ReadyState) : nat :=
  List.length (filter (fun s => negb (is_closed s)) ss).

Definition live (w : World) : nat := count_live (sockets w).

(** A backend record with the given cadence and numeric timestamp. *)
Definition sample (n : Z) : Value :=
  VObj [("cadence", VNum (ofZ n)); ("timestamp", VNum (ofZ n))].

(** A success envelope around the given records. *)
Definition success_envelope (items : list Value) : FetchOutcome :=
  Response true 200 (Ok (VObj [("success", VBool true); ("data", VArr items)])).

(** [n] backend records, oldest first: record [i] has cadence and
    timestamp [i]. *)
Definition oldest_first (n : nat) : list Value :=
  map (fun i => sample (Z.of_nat i)) (seq 1 n).

(** The record the normalizer builds from [raw] once the timestamp has
    been converted to [time]. *)
Definition normalized (raw : Value) (time : number) : GaitDataEntry :=
  {| cadence := or (field raw "cadence") (VNum zero);
     equilibriumScore := or (field raw "equilibrium") (VNum zero);
     frequency := or (field raw "frequency") (VNum zero);
     posturalSway := or (field raw "posturalSway") (VNum zero);
     sensors := [];
     stepWidth := zero;
     steps := or (field raw "stepCount") (VNum zero);
     strideLength := or (field raw "strideLength") (VNum zero);
     kneeForce := or (field raw "kneeForce") (VNum zero);
     timestamp := time;
     walkingSpeed := or (field raw "walkingSpeed") (VNum zero) |}.

(** A platform to evaluate examples on: the clock starts at
    1700000000000 ms and advances by one millisecond per reading, no
    string parses as a date or a number, and every URL opens a socket.
    An object converts to the string [[object Object]] unless it has a
    [toString] property of its own, which (coming from JSON) is not
    callable; arrays, which no example uses, are not converted. *)
Definition examplePlatform : Platform :=
  {| Date_now := fun k => ofZ (1700000000000 + Z.of_nat k);
     Date_parse := fun _ => NaN;
     ObjectToPrimitive := fun v =>
       match v with
       | VObj _ => if has v "toString" then None
                   else Some (VStr "[object Object]")
       | _ => None
       end;
     Number_toString := fun _ => "";
     StringToNumber := fun _ => NaN;
     WebSocket_accepts := fun _ => true |}.



Definition exampleBase : string := "http://localhost:5000".

(** A freshly mounted hook on that platform. *)
Definition mounted : World := mount examplePlatform exampleBase.

(** *** Vocabulary of the further statements *)

(** The record the normalizer builds from a payload that has none of the
    properties it reads. *)
Definition zeroEntry (time : number) : GaitDataEntry :=
  {| cadence := VNum zero;
     equilibriumScore := VNum zero;
     frequency := VNum zero;
     posturalSway := VNum zero;
     sensors := [];
     stepWidth := zero;
     steps := VNum zero;
     strideLength := VNum zero;
     kneeForce := VNum zero;
     timestamp := time;
     walkingSpeed := VNum zero |}.

(** The values of the fallback sample, in the order of the features. *)
Definition defaultFeatures : list Value :=
  [VNum (ofZ 100); VNum (dec 12 10); VNum (dec 7 10); VNum (dec 8 10);
   VNum (dec 15 10); VNum (dec 1 10); VNum (ofZ 50)].

(** The feature vector the specification reads off a buffer. *)
Definition featuresOf (l : list GaitDataEntry) : list Value :=
  match l with
  | [] => defaultFeatures
  | _ :: _ => map (fun f => VNum (mean f l)) feature_fields
  end.

(** What the consumer has been given is never taken back: a cleared
    loading flag, published data, a scoring result, a recorded error. *)
Definition never_taken_back (s s' : GaitMetricsState) : Prop :=
  (loading s = false -> loading s' = false)
  /\ (data s <> None -> data s' <> None)
  /\ (mlResult s <> None -> mlResult s' <> None)
  /\ (error s <> None -> error s' <> None).

(** Settles [never_taken_back] between a state and an explicit update
    of it. *)
Ltac solve_kept :=
  unfold never_taken_back; cbn; repeat split; intros;
  try assumption; try discriminate; try congruence.

Definition is_closing_or_closed (s : ReadyState) : bool :=
  match s with
  | CLOSING | CLOSED => true
  | CONNECTING | OPEN => false
  end.

(** The index of the socket created last. *)
Definition last_index (ss : list ReadyState) : option nat :=
  match ss with
  | [] => None
  | _ :: _ => Some (List.length ss - 1)%nat
  end.

(** [wsRef.current] is the socket created last, and every socket
    created before it has closed. *)
Definition current_is_last (w : World) : Prop :=
  wsRef w = last_index (sockets w)
  /\ forall i, (S i < List.length (sockets w))%nat ->
               nth i (sockets w) CLOSED = CLOSED.

End Hook.

(* ================================================================== *)
(** ** Properties of the endpoint resolver *)
(* ================================================================== *)

Section ResolverFacts.
Import ApiConfig.

Lemma WS_URL_http (rest : string) :
  WS_URL ("http://" ++ rest) = "ws://" ++ rest.
Proof. cbv. reflexivity. Qed.

Lemma WS_URL_https (rest : string) :
  WS_URL ("https://" ++ rest) = "wss://" ++ rest.
Proof. cbv. reflexivity. Qed.

(** C5.  A base endpoint that begins with [http://] resolves to the same
    string with [ws://] in place of that scheme, one that begins with
    [https://] to the same string with [wss://] in its place, and the
    characters after the scheme are kept as they are; the two endpoints
    of the specification resolve as it says. *)
Theorem C5_resolver_replaces_scheme :
  (forall rest, WS_URL ("http://" ++ rest) = "ws://" ++ rest)
  /\ (forall rest, WS_URL ("https://" ++ rest) = "wss://" ++ rest)
  /\ WS_URL "http://host:5000" = "ws://host:5000"
  /\ WS_URL "https://host" = "wss://host".
Proof.
  split; [exact WS_URL_http|].
  split; [exact WS_URL_https|].
  split; reflexivity.
Qed.

(** A base endpoint without either scheme is left as it is. *)
Lemma WS_URL_no_scheme (s : string) :
  match_scheme s = None -> WS_URL s = s.
Proof. intros H. unfold WS_URL, replace_scheme. now rewrite H. Qed.

End ResolverFacts.

(* ================================================================== *)
(** ** Properties of the hook *)
(* ================================================================== *)

Section HookFacts.
Import JS Hook.

Variable P : Platform.

(** *** The store *)

Lemma deref_store_same (h : Heap) (l : loc) (a : list GaitDataEntry) :
  deref (store h l a) l = a.
Proof. unfold store. cbn. now rewrite Nat.eqb_refl. Qed.

Lemma deref_store_other (h : Heap) (l l' : loc) (a : list GaitDataEntry) :
  l <> l' -> deref (store h l' a) l = deref h l.
Proof.
  intros Hne. unfold store. cbn.
  destruct (Nat.eqb_spec l l') as [Heq|_]; [contradiction|reflexivity].
Qed.

Lemma buffer_install (a : list GaitDataEntry) (w : World) :
  buffer (install a w) = a.
Proof. unfold install, alloc, buffer. cbn. now rewrite Nat.eqb_refl. Qed.

Lemma published_install (a : list GaitDataEntry) (w : World) :
  published (install a w) = Some a.
Proof. unfold install, alloc, published. cbn. now rewrite Nat.eqb_refl. Qed.

Lemma buffer_install_empty (w : World) : buffer (install_empty w) = [].
Proof.
  unfold install_empty, alloc, buffer. cbn.
  destruct (Nat.eqb_spec (next_loc w) (S (next_loc w))) as [Heq|_]; [lia|].
  now rewrite Nat.eqb_refl.
Qed.

Lemma published_install_empty (w : World) :
  published (install_empty w) = Some [].
Proof. unfold install_empty, alloc, published. cbn. now rewrite Nat.eqb_refl. Qed.

Lemma state_install_empty (w : World) :
  loading (state (install_empty w)) = false
  /\ error (state (install_empty w)) = error (state w).
Proof. split; reflexivity. Qed.

(** The request of the scoring client touches neither the state nor the
    arrays. *)
Lemma fetchMLGaitScore_request_frame (d : list GaitDataEntry) (w : World) :
  state (fetchMLGaitScore_request P d w) = state w
  /\ heap (fetchMLGaitScore_request P d w) = heap w
  /\ historicalData (fetchMLGaitScore_request P d w) = historicalData w
  /\ sockets (fetchMLGaitScore_request P d w) = sockets w
  /\ timers (fetchMLGaitScore_request P d w) = timers w.
Proof.
  unfold fetchMLGaitScore_request.
  destruct (features P d (ticks w)) as [[fs|e] k]; repeat split.
Qed.

(** *** Handshake and unparseable messages *)

Lemma lookup_has (k : string) (fields : list (string * Value)) :
  lookup k fields <> VUndef -> has (VObj fields) k = true.
Proof.
  induction fields as [|[k' v] rest IH]; cbn; intros H.
  - contradiction.
  - destruct (String.eqb k k'); [reflexivity|]. cbn. now apply IH.
Qed.

Lemma is_connection_handshake (fields : list (string * Value)) :
  lookup "type" fields = VStr "connection" ->
  is_connection (VObj fields) = true.
Proof.
  intros H. unfold is_connection. cbn [typeof_object negb andb get].
  rewrite lookup_has by (rewrite H; discriminate).
  now rewrite H.
Qed.

(** C8.  A message that does not parse, and a handshake message (an
    object whose [type] is ["connection"]), leave the whole world as it
    was: the rolling buffer, the published data, the loading flag, the
    error field, the sockets and the pending timers. *)
Theorem C8_handshake_and_unparseable_ignored
  (parsed : Result Value) (w : World) :
  ((exists e, parsed = Throw e)
   \/ (exists fields, parsed = Ok (VObj fields)
                      /\ lookup "type" fields = VStr "connection")) ->
  onmessage P parsed w = w.
Proof.
  intros [[e ->]|[fields [-> Htype]]]; cbn [onmessage].
  - reflexivity.
  - now rewrite (is_connection_handshake fields Htype).
Qed.

(** *** The scoring result *)

(** C4 (amended).  A rejected request, a response that is not ok, a body
    that does not parse and a [null] body all give the pair (4, 0.85).
    On any other body the score is the first slot of its [data] and the
    confidence the second, each replaced by its default (4, 0.85)
    whenever the slot is absent or falsy; the body [{data:[7.2, 0.91]}]
    gives (7.2, 0.91). *)
Theorem C4_scoring_result_or_default :
  let default := {| score := VNum (ofZ 4); confidence := VNum (dec 85 100) |} in
  (forall e, fetchMLGaitScore_result (Rejected e) = default)
  /\ (forall status json,
         fetchMLGaitScore_result (Response false status json) = default)
  /\ (forall status e,
         fetchMLGaitScore_result (Response true status (Throw e)) = default)
  /\ (forall status result,
         fetchMLGaitScore_result (Response true status (Ok result)) =
         match result with
         | VNull | VUndef => default
         | _ =>
             let slot0 := opt_index (field result "data") 0 in
             let slot1 := opt_index (field result "data") 1 in
             {| score := if ToBoolean slot0 then slot0 else VNum (ofZ 4);
                confidence :=
                  if ToBoolean slot1 then slot1 else VNum (dec 85 100) |}
         end)
  /\ fetchMLGaitScore_result
       (Response true 200
          (Ok (VObj [("data", VArr [VNum (dec 72 10); VNum (dec 91 100)])])))
     = {| score := VNum (dec 72 10); confidence := VNum (dec 91 100) |}.
Proof.
  cbv zeta. repeat split.
  intros status result. destruct result; reflexivity.
Qed.

(** C4 as stated fails: in the body [{data:[0, 0.5]}] the first slot is
    present, and the score returned is the default 4, not the slot. *)
Lemma C4_counterexample_present_zero_slot :
  let items := [VNum zero; VNum (dec 5 10)] in
  let r := fetchMLGaitScore_result
             (Response true 200 (Ok (VObj [("data", VArr items)]))) in
  nth_error items 0 = Some (VNum zero)
  /\ score r = VNum (ofZ 4)
  /\ score r <> VNum zero
  /\ confidence r = VNum (dec 5 10).
Proof.
  cbv zeta. repeat split. cbv. discriminate.
Qed.

(** *** The historical backfill *)

Lemma fetchHistoricalData_not_ok_frame
  (status : Z) (json : Result Value) (w : World) :
  let w' := fetchHistoricalData_resolved P (Response false status json) w in
  state w' = state w /\ buffer w' = buffer w /\ published w' = published w.
Proof.
  cbv zeta. unfold fetchHistoricalData_resolved, buffer, published.
  destruct (fetchMLGaitScore_request_frame (deref (heap w) (historicalData w)) w)
    as (Hs & Hh & Hd & _).
  unfold buffer in *. now rewrite Hs, Hh, Hd.
Qed.

(** Mounting ends in the world the second effect has left, with or
    without the historical request in flight. *)
Lemma mount_shape (API_BASE : string) :
  let w2 := connectWebSocket P (ApiConfig.WS_URL API_BASE)
              (checkConfig API_BASE (ApiConfig.WS_URL API_BASE) initialWorld) in
  mount P API_BASE = w2 \/ mount P API_BASE = set_historicalPending true w2.
Proof.
  cbv zeta. unfold mount.
  destruct (connectWebSocket_throws P _); [now left|].
  destruct (String.eqb API_BASE ""); [now left|now right].
Qed.

Lemma state_mount (API_BASE : string) :
  String.eqb API_BASE "" = false ->
  String.eqb (ApiConfig.WS_URL API_BASE) "" = false ->
  state (mount P API_BASE) = initialState.
Proof.
  intros H1 H2.
  assert (Hs : state (connectWebSocket P (ApiConfig.WS_URL API_BASE)
                        (checkConfig API_BASE (ApiConfig.WS_URL API_BASE)
                           initialWorld)) = initialState).
  { unfold checkConfig, connectWebSocket. rewrite H1, H2. cbn.
    destruct (WebSocket_accepts P (ApiConfig.WS_URL API_BASE)); reflexivity. }
  destruct (mount_shape API_BASE) as [->| ->]; exact Hs.
Qed.

(** C2 at the failing outcome.  When the historical request ends with a
    response that is not ok, the backfill changes neither the state nor
    the buffer; right after the hook has mounted the loading flag is
    therefore still set, and no data is published. *)
Theorem C2_not_ok_response_keeps_loading :
  (forall status json w,
      let w' := fetchHistoricalData_resolved P (Response false status json) w in
      state w' = state w /\ buffer w' = buffer w
      /\ published w' = published w)
  /\ let w' := fetchHistoricalData_resolved P
                 (Response false 500 (Throw SyntaxError))
                 (mount P "http://localhost:5000") in
     loading (state w') = true /\ published w' = None /\ buffer w' = [].
Proof.
  split; [exact fetchHistoricalData_not_ok_frame|].
  cbv zeta.
  destruct (fetchHistoricalData_not_ok_frame 500 (Throw SyntaxError)
              (mount P "http://localhost:5000")) as (Hs & Hb & Hp).
  rewrite Hs, Hb, Hp.
  unfold published, buffer.
  rewrite (state_mount "http://localhost:5000") by reflexivity.
  repeat split.
  destruct (mount_shape "http://localhost:5000") as [->| ->];
    unfold checkConfig, connectWebSocket; cbn;
    destruct (WebSocket_accepts P _); reflexivity.
Qed.

(** On every other outcome the backfill clears the loading flag; when the
    request fails the buffer and the published data are empty and the
    error is recorded; on an envelope without success they are empty and
    the error is left as it was. *)
Lemma fetchHistoricalData_failure (w : World) (o : FetchOutcome) (e : Exn) :
  (o = Rejected e \/ exists status, o = Response true status (Throw e)) ->
  let w' := fetchHistoricalData_resolved P o w in
  loading (state w') = false /\ buffer w' = [] /\ published w' = Some []
  /\ error (state w') = Some (Caught e).
Proof.
  intros Ho. cbv zeta.
  assert (Hw : fetchHistoricalData_resolved P o w =
               fetchMLGaitScore_request P (buffer (catch_historical e w))
                 (catch_historical e w)).
  { destruct Ho as [->|[status ->]]; reflexivity. }
  rewrite Hw.
  destruct (fetchMLGaitScore_request_frame
              (buffer (catch_historical e w)) (catch_historical e w))
    as (Hs & Hh & Hd & _).
  unfold buffer, published in *. rewrite Hs, Hh, Hd.
  unfold catch_historical.
  fold (buffer (install_empty
    (setState (fun prev => with_loading false (with_error (Some (Caught e)) prev)) w))).
  rewrite buffer_install_empty.
  repeat split.
  apply published_install_empty.
Qed.

(** An envelope without success (or without data) empties the buffer and
    the published data, clears the loading flag and records no error. *)
Lemma fetchHistoricalData_no_data
  (w : World) (status : Z) (fields : list (string * Value)) :
  ToBoolean (lookup "success" fields) = false
  \/ ToBoolean (lookup "data" fields) = false ->
  let w' := fetchHistoricalData_resolved P
              (Response true status (Ok (VObj fields))) w in
  loading (state w') = false /\ buffer w' = [] /\ published w' = Some []
  /\ error (state w') = error (state w).
Proof.
  intros Hno. cbv zeta.
  assert (Henv : envelope P (VObj fields) (ticks w) = (Ok None, ticks w)).
  { unfold envelope, bind, lift, ret. cbn [get].
    destruct (ToBoolean (lookup "success" fields)) eqn:Hs.
    - destruct Hno as [Hno|Hno]; [discriminate|]. now rewrite Hno.
    - now rewrite Hs. }
  unfold fetchHistoricalData_resolved. rewrite Henv.
  set (w1 := install_empty (set_ticks (ticks w) w)).
  destruct (fetchMLGaitScore_request_frame (buffer w1) w1)
    as (Hs & Hh & Hd & _).
  unfold buffer, published in *. rewrite Hs, Hh, Hd.
  fold (buffer w1). unfold w1. rewrite buffer_install_empty.
  repeat split. apply published_install_empty.
Qed.

Lemma slice_last_rev {A : Type} (n : nat) (l : list A) :
  slice_last n (rev l) = rev (firstn n l).
Proof.
  unfold slice_last. rewrite length_rev.
  rewrite <- (firstn_skipn n l) at 2.
  rewrite rev_app_distr.
  rewrite skipn_app.
  assert (Hlen : List.length (rev (skipn n l)) = (List.length l - n)%nat)
    by now rewrite length_rev, length_skipn.
  rewrite <- Hlen at 1. rewrite skipn_all.
  rewrite Hlen, Nat.sub_diag. reflexivity.
Qed.

(** What a success envelope installs: the mapped records are reversed and
    the last twenty of the reversed array are kept, that is the first
    twenty records of the response, latest of them first. *)
Lemma fetchHistoricalData_success
  (w : World) (status : Z) (items : list Value)
  (entries : list GaitDataEntry) (k : nat) :
  mapM (mapItem P) items (ticks w) = (Ok entries, k) ->
  let w' := fetchHistoricalData_resolved P
              (Response true status
                 (Ok (VObj [("success", VBool true); ("data", VArr items)])))
              w in
  buffer w' = rev (firstn 20 entries)
  /\ published w' = Some (rev (firstn 20 entries))
  /\ loading (state w') = false.
Proof.
  intros Hmap. cbv zeta.
  unfold fetchHistoricalData_resolved, envelope, bind, lift, ret.
  cbn [get lookup String.eqb Ascii.eqb Bool.eqb ToBoolean].
  rewrite Hmap.
  set (w1 := install (slice_last 20 (rev entries)) (set_ticks k w)).
  destruct (fetchMLGaitScore_request_frame (buffer w1) w1)
    as (Hs & Hh & Hd & _).
  unfold buffer, published in *. rewrite Hs, Hh, Hd.
  fold (buffer w1). fold (published w1). unfold w1.
  rewrite buffer_install, published_install, slice_last_rev.
  repeat split.
Qed.

(** C1 at the failing input.  For a success envelope of 25 records,
    oldest first, the buffer the backfill installs holds records 20 down
    to 1: the twenty oldest, not the twenty most recent (25 down to 6). *)
Theorem C1_backfill_of_25_keeps_the_20_oldest (w : World) :
  let w' := fetchHistoricalData_resolved P
              (success_envelope (oldest_first 25)) w in
  map cadence (buffer w')
  = map (fun i => VNum (ofZ (Z.of_nat i))) (rev (seq 1 20))
  /\ map cadence (buffer w')
     <> map (fun i => VNum (ofZ (Z.of_nat i))) (rev (seq 6 20)).
Proof.
  cbv zeta.
  assert (Hmap : exists entries,
             mapM (mapItem P) (oldest_first 25) (ticks w)
             = (Ok entries, ticks w)
             /\ map cadence (rev (firstn 20 entries))
                = map (fun i => VNum (ofZ (Z.of_nat i))) (rev (seq 1 20))).
  { eexists. split; [reflexivity|]. vm_compute. reflexivity. }
  destruct Hmap as (entries & Hmap & Hcad).
  destruct (fetchHistoricalData_success w 200 (oldest_first 25) entries
              (ticks w)) as (Hbuf & _); [exact Hmap|].
  unfold success_envelope. rewrite Hbuf, Hcad.
  split; [reflexivity|]. vm_compute. discriminate.
Qed.

(** *** The payload normalizer *)

Lemma mapItem_gaitEntry (raw : Value) : mapItem P raw = gaitEntry P raw.
Proof. reflexivity. Qed.

Lemma get_field (raw : Value) (k : string) :
  raw <> VNull -> raw <> VUndef -> get raw k = Ok (field raw k).
Proof. intros H1 H2. destruct raw; try contradiction; reflexivity. Qed.

(** The normalizer on a record other than [null]: it reads the clock
    when the timestamp is falsy, converts the timestamp, and builds the
    record. *)
Lemma gaitEntry_unfold (raw : Value) (k : nat) :
  raw <> VNull -> raw <> VUndef ->
  gaitEntry P raw k =
  if ToBoolean (field raw "timestamp") then
    match Date_getTime P (field raw "timestamp") with
    | Ok t => (Ok (normalized raw t), k)
    | Throw e => (Throw e, k)
    end
  else (Ok (normalized raw (TimeClip (Date_now P k))), S k).
Proof.
  intros H1 H2. unfold gaitEntry, bind, lift, ret, or_now, now.
  rewrite !(get_field raw) by assumption.
  destruct (ToBoolean (field raw "timestamp")).
  - unfold ret.
    destruct (Date_getTime P (field raw "timestamp")); reflexivity.
  - reflexivity.
Qed.

Lemma ToPrimitive_primitive (v : Value) :
  is_primitive v = true -> ToPrimitive P v = Ok v.
Proof. destruct v; cbn; intros H; try discriminate; reflexivity. Qed.

(** The normalizer returns a record exactly when the record is not
    [null] and its timestamp converts to a primitive value. *)
Lemma gaitEntry_returns (raw p : Value) (k : nat) :
  raw <> VNull -> raw <> VUndef ->
  ToPrimitive P (field raw "timestamp") = Ok p ->
  exists t k', gaitEntry P raw k = (Ok (normalized raw t), k')
    /\ (ToBoolean (field raw "timestamp") = false ->
        t = TimeClip (Date_now P k))
    /\ (forall s, field raw "timestamp" = VStr s -> s <> "" ->
        t = TimeClip (Date_parse P s)).
Proof.
  intros H1 H2 Hprim. rewrite gaitEntry_unfold by assumption.
  destruct (ToBoolean (field raw "timestamp")) eqn:Hts.
  - unfold Date_getTime. rewrite Hprim.
    eexists _, _. split; [reflexivity|]. split; [discriminate|].
    intros s Hs _. rewrite Hs in Hprim. now injection Hprim as <-.
  - eexists _, _. split; [reflexivity|]. split; [reflexivity|].
    intros s Hs Hne. rewrite Hs in Hts. cbn in Hts.
    destruct (String.eqb_spec s ""); [contradiction|discriminate].
Qed.

Lemma gaitEntry_throws (raw : Value) (k : nat) :
  raw = VNull \/ raw = VUndef
  \/ (ToBoolean (field raw "timestamp") = true
      /\ exists x, ToPrimitive P (field raw "timestamp") = Throw x) ->
  exists x, gaitEntry P raw k = (Throw x, k).
Proof.
  intros [->|[->|[Hts [x Hx]]]]; [now exists TypeError..|].
  assert (H1 : raw <> VNull) by (intros ->; discriminate Hts).
  assert (H2 : raw <> VUndef) by (intros ->; discriminate Hts).
  exists x. rewrite gaitEntry_unfold by assumption.
  rewrite Hts. unfold Date_getTime. now rewrite Hx.
Qed.

Lemma or_zero_falsy (v : Value) :
  ToBoolean v = false -> or v (VNum zero) = VNum zero.
Proof. intros H. unfold or. now rewrite H. Qed.

(** C6.  For a raw record (streamed or historical alike) whose timestamp
    converts to a primitive value, as every string, number and absent
    timestamp does, the normalizer produces a record in which every
    numeric field whose input is omitted, [null] or otherwise falsy is
    exactly [0], and whose sensors are the empty sequence. *)
Theorem C6_falsy_numeric_fields_become_zero (raw p : Value) (k : nat) :
  raw <> VNull -> raw <> VUndef ->
  ToPrimitive P (field raw "timestamp") = Ok p ->
  exists e k',
    gaitEntry P raw k = (Ok e, k') /\ mapItem P raw k = (Ok e, k')
    /\ sensors e = []
    /\ (ToBoolean (field raw "cadence") = false -> cadence e = VNum zero)
    /\ (ToBoolean (field raw "equilibrium") = false ->
        equilibriumScore e = VNum zero)
    /\ (ToBoolean (field raw "frequency") = false -> frequency e = VNum zero)
    /\ (ToBoolean (field raw "posturalSway") = false ->
        posturalSway e = VNum zero)
    /\ (ToBoolean (field raw "stepCount") = false -> steps e = VNum zero)
    /\ (ToBoolean (field raw "strideLength") = false ->
        strideLength e = VNum zero)
    /\ (ToBoolean (field raw "kneeForce") = false -> kneeForce e = VNum zero)
    /\ (ToBoolean (field raw "walkingSpeed") = false ->
        walkingSpeed e = VNum zero).
Proof.
  intros H1 H2 Hprim.
  destruct (gaitEntry_returns raw p k H1 H2 Hprim) as (t & k' & He & _).
  exists (normalized raw t), k'.
  split; [exact He|].
  split; [exact (eq_trans (f_equal (fun f => f k) (mapItem_gaitEntry raw)) He)|].
  split; [reflexivity|].
  cbn [normalized cadence equilibriumScore frequency posturalSway steps
       strideLength kneeForce walkingSpeed].
  repeat split; apply or_zero_falsy.
Qed.

Lemma or_zero_number (v : Value) :
  is_number v || negb (ToBoolean v) = true ->
  is_number (or v (VNum zero)) = true.
Proof.
  unfold or. destruct (ToBoolean v); [|reflexivity].
  now rewrite orb_false_r.
Qed.

Lemma forallb_or_zero (raw : Value) (names : list string) :
  forallb (fun name => is_number (field raw name)
                       || negb (ToBoolean (field raw name))) names = true ->
  forallb is_number (map (fun name => or (field raw name) (VNum zero)) names)
  = true.
Proof.
  induction names as [|name rest IH]; cbn [forallb map]; [reflexivity|].
  rewrite !andb_true_iff. intros [Hname Hrest].
  split; [now apply or_zero_number | now apply IH].
Qed.

(** C7 (amended).  For a raw record other than [null] whose timestamp
    converts to a primitive value, as every string, number and absent
    timestamp does, the normalizer does not throw.  Each numeric field of
    the record it produces is the input when that is truthy and [0]
    otherwise, hence a number whenever every numeric input is a number
    or falsy.  A falsy timestamp gives the instant the clock reads (a
    valid time value), a timestamp string whatever [Date.parse] makes of
    it. *)
Theorem C7_normalizer_on_typed_records (raw p : Value) (k : nat) :
  raw <> VNull -> raw <> VUndef ->
  ToPrimitive P (field raw "timestamp") = Ok p ->
  TimeClip (Date_now P k) = Date_now P k ->
  exists e k',
    gaitEntry P raw k = (Ok e, k')
    /\ numeric_outputs e
       = map (fun name => if ToBoolean (field raw name) then field raw name
                          else VNum zero) numeric_inputs
    /\ (forallb (fun name => is_number (field raw name)
                             || negb (ToBoolean (field raw name)))
                numeric_inputs = true ->
        forallb is_number (numeric_outputs e) = true)
    /\ (ToBoolean (field raw "timestamp") = false ->
        timestamp e = Date_now P k)
    /\ (forall s, field raw "timestamp" = VStr s -> s <> "" ->
        timestamp e = TimeClip (Date_parse P s)).
Proof.
  intros H1 H2 Hprim Hclock.
  destruct (gaitEntry_returns raw p k H1 H2 Hprim)
    as (t & k' & He & Hnow & Hstr).
  exists (normalized raw t), k'.
  split; [exact He|]. split; [reflexivity|].
  split.
  - intros Hin.
    change (numeric_outputs (normalized raw t))
      with (map (fun name => or (field raw name) (VNum zero)) numeric_inputs).
    now apply forallb_or_zero.
  - cbn [normalized timestamp]. split.
    + intros Hts. now rewrite (Hnow Hts).
    + exact Hstr.
Qed.

(** *** The rolling buffer under streamed messages *)

Lemma buffer_unshift (e : GaitDataEntry) (w : World) :
  buffer (unshift (historicalData w) e w) = e :: buffer w.
Proof. unfold unshift, buffer. cbn. now rewrite Nat.eqb_refl. Qed.

Lemma buffer_pop (w : World) :
  buffer (pop (historicalData w) w) = removelast (buffer w).
Proof. unfold pop, buffer. cbn. now rewrite Nat.eqb_refl. Qed.

(** An accepted message: the record goes to the front, the last record
    is dropped when that makes more than twenty, and the array itself is
    what the state publishes. *)
Lemma onmessage_accepted (v : Value) (e : GaitDataEntry) (k : nat) (w : World) :
  is_connection v = false ->
  gaitEntry P v (ticks w) = (Ok e, k) ->
  let w' := onmessage P (Ok v) w in
  buffer w' = (if (20 <? S (List.length (buffer w)))%nat
               then removelast (e :: buffer w) else e :: buffer w)
  /\ published w' = Some (buffer w')
  /\ loading (state w') = false.
Proof.
  intros Hc He. cbv zeta. unfold onmessage. rewrite Hc, He.
  set (w1 := unshift (historicalData w) e (set_ticks k w)).
  assert (Hb1 : buffer w1 = e :: buffer w)
    by apply (buffer_unshift e (set_ticks k w)).
  rewrite Hb1. cbn [List.length].
  destruct (20 <? S (List.length (buffer w)))%nat.
  - split; [|split; reflexivity].
    change (buffer (pop (historicalData w1) w1) = removelast (e :: buffer w)).
    now rewrite buffer_pop, Hb1.
  - split; [exact Hb1|split; reflexivity].
Qed.

Lemma length_removelast {A : Type} (l : list A) :
  List.length (removelast l) = (List.length l - 1)%nat.
Proof.
  induction l as [|a [|b rest] IH]; [reflexivity|reflexivity|].
  change (removelast (a :: b :: rest)) with (a :: removelast (b :: rest)).
  cbn [List.length] in *. rewrite IH. lia.
Qed.

Lemma onmessage_bounded (parsed : Result Value) (w : World) :
  (List.length (buffer w) <= 20)%nat ->
  (List.length (buffer (onmessage P parsed w)) <= 20)%nat.
Proof.
  intros Hlen. destruct parsed as [v|x]; [|exact Hlen].
  destruct (is_connection v) eqn:Hc.
  - unfold onmessage. now rewrite Hc.
  - destruct (gaitEntry P v (ticks w)) as [[e|x] k] eqn:He.
    + destruct (onmessage_accepted v e k w Hc He) as (Hb & _).
      rewrite Hb.
      destruct (Nat.ltb_spec 20 (S (List.length (buffer w)))).
      * rewrite length_removelast. cbn [List.length]. lia.
      * cbn [List.length]. lia.
    + unfold onmessage. now rewrite Hc, He.
Qed.

Lemma deliver_bounded (msgs : list (Result Value)) (w : World) :
  (List.length (buffer w) <= 20)%nat ->
  (List.length (buffer (deliver P msgs w)) <= 20)%nat.
Proof.
  revert w. induction msgs as [|m rest IH]; intros w Hlen; [exact Hlen|].
  cbn [deliver fold_left]. apply IH. now apply onmessage_bounded.
Qed.

(** C3.  Start from a buffer of at most twenty records and deliver any
    sequence of messages.  When one more message is accepted, yielding
    the record [e], the buffer again has at most twenty records, [e] is
    at index 0, and the records that were there follow it in their
    order, without the last of them when there already were twenty. *)
Theorem C3_prepend_keeps_bound_and_order
  (msgs : list (Result Value)) (w : World)
  (v : Value) (e : GaitDataEntry) (k : nat) :
  (List.length (buffer w) <= 20)%nat ->
  let w1 := deliver P msgs w in
  is_connection v = false ->
  gaitEntry P v (ticks w1) = (Ok e, k) ->
  let w2 := onmessage P (Ok v) w1 in
  (List.length (buffer w2) <= 20)%nat
  /\ nth_error (buffer w2) 0 = Some e
  /\ buffer w2 = e :: (if (List.length (buffer w1) =? 20)%nat
                       then removelast (buffer w1) else buffer w1).
Proof.
  intros Hlen w1 Hc He w2.
  assert (Hlen1 : (List.length (buffer w1) <= 20)%nat)
    by now apply deliver_bounded.
  assert (Hb : buffer w2
               = e :: (if (List.length (buffer w1) =? 20)%nat
                       then removelast (buffer w1) else buffer w1)).
  { destruct (onmessage_accepted v e k w1 Hc He) as (Hb & _).
    unfold w2. rewrite Hb.
    destruct (Nat.eqb_spec (List.length (buffer w1)) 20) as [H20|Hn20].
    - destruct (Nat.ltb_spec 20 (S (List.length (buffer w1)))); [|lia].
      destruct (buffer w1) as [|b rest]; [discriminate H20|reflexivity].
    - destruct (Nat.ltb_spec 20 (S (List.length (buffer w1)))); [lia|].
      reflexivity. }
  split; [now apply onmessage_bounded|].
  split; now rewrite Hb.
Qed.

(** *** The feature vector of the scoring client *)

Lemma reduce_add_numbers
  (f : GaitDataEntry -> Value) (l : list GaitDataEntry) (acc : number) :
  forallb (fun d => is_number (f d)) l = true ->
  reduce (fun sum d => add P sum (f d)) l (VNum acc)
  = Ok (VNum (fold_left nadd (map (fun d => to_number (f d)) l) acc)).
Proof.
  revert acc. induction l as [|d rest IH]; intros acc Hnum; [reflexivity|].
  cbn [forallb] in Hnum. apply andb_true_iff in Hnum as [Hd Hrest].
  cbn [reduce map fold_left].
  destruct (f d) as [| | |x| | |] eqn:Hfd; try discriminate Hd.
  cbn [add ToPrimitive is_string orb PrimToNumber to_number].
  now apply IH.
Qed.

Lemma average_numbers (f : GaitDataEntry -> Value) (l : list GaitDataEntry) :
  forallb (fun d => is_number (f d)) l = true ->
  average P f l = Ok (VNum (mean f l)).
Proof.
  intros Hnum. unfold average. now rewrite reduce_add_numbers.
Qed.

Lemma numeric_features_field
  (f : GaitDataEntry -> Value) (l : list GaitDataEntry) :
  In f feature_fields ->
  forallb numeric_features l = true ->
  forallb (fun d => is_number (f d)) l = true.
Proof.
  intros Hin Hall. apply forallb_forall. intros d Hd.
  rewrite forallb_forall in Hall. specialize (Hall d Hd).
  unfold numeric_features in Hall. rewrite forallb_forall in Hall.
  now apply Hall.
Qed.

Lemma features_numbers (data : list GaitDataEntry) (k : nat) :
  data <> [] ->
  forallb numeric_features data = true ->
  features P data k
  = (Ok (map (fun f => VNum (mean f data)) feature_fields), k).
Proof.
  intros Hne Hnum. unfold features.
  destruct data as [|d rest]; [contradiction|].
  cbn [List.length Nat.ltb Nat.leb].
  unfold bind, ret, lift.
  rewrite !average_numbers
    by (apply numeric_features_field; [cbn; tauto|exact Hnum]).
  reflexivity.
Qed.

Lemma features_empty (k : nat) :
  features P [] k
  = (Ok [VNum (ofZ 100); VNum (dec 12 10); VNum (dec 7 10); VNum (dec 8 10);
         VNum (dec 15 10); VNum (dec 1 10); VNum (ofZ 50)], S k).
Proof. vm_compute. reflexivity. Qed.


(** *** Sockets and reconnect timers along a run *)

Lemma live_count (w : World) : live w = count_live (sockets w).
Proof. reflexivity. Qed.

Lemma count_live_app (ss ss' : list ReadyState) :
  count_live (ss ++ ss') = (count_live ss + count_live ss')%nat.
Proof. unfold count_live. now rewrite filter_app, length_app. Qed.

Lemma count_live_update_same
  (f : ReadyState -> ReadyState) (i : nat) (ss : list ReadyState) :
  is_closed (f (nth i ss CLOSED)) = is_closed (nth i ss CLOSED) ->
  count_live (update i f ss) = count_live ss.
Proof.
  revert i. induction ss as [|s rest IH]; intros i Hf;
    [destruct i; reflexivity|].
  destruct i as [|i]; cbn [update nth] in *.
  - unfold count_live. cbn [filter]. rewrite Hf.
    now destruct (negb (is_closed s)).
  - unfold count_live in *. cbn [filter].
    destruct (negb (is_closed s)); cbn [List.length]; now rewrite IH.
Qed.

Lemma count_live_update_closed (i : nat) (ss : list ReadyState) :
  is_closed (nth i ss CLOSED) = false ->
  count_live ss = S (count_live (update i (fun _ => CLOSED) ss)).
Proof.
  revert i. induction ss as [|s rest IH]; intros i Hopen.
  - destruct i; discriminate Hopen.
  - destruct i as [|i]; cbn [update nth] in *.
    + unfold count_live. cbn [filter is_closed negb]. now rewrite Hopen.
    + unfold count_live in *. cbn [filter].
      destruct (negb (is_closed s)); cbn [List.length]; now rewrite (IH i).
Qed.

Lemma length_remove_nth {A : Type} (i : nat) (l : list A) :
  (i < List.length l)%nat ->
  List.length l = S (List.length (remove_nth i l)).
Proof.
  revert i. induction l as [|x rest IH]; intros i Hi; [cbn in Hi; lia|].
  destruct i as [|i]; [reflexivity|].
  cbn [remove_nth List.length] in *. f_equal. apply IH. lia.
Qed.

Lemma connectWebSocket_frame (url : string) (w : World) :
  (live (connectWebSocket P url w) <= S (live w))%nat
  /\ timers (connectWebSocket P url w) = timers w
  /\ buffer (connectWebSocket P url w) = buffer w.
Proof.
  unfold connectWebSocket.
  destruct (String.eqb url ""); [repeat split; lia|].
  destruct (WebSocket_accepts P url); [|repeat split; lia].
  repeat split. rewrite !live_count. cbn [sockets set_wsRef set_sockets].
  rewrite count_live_app. cbn. lia.
Qed.

Lemma onmessage_frame (parsed : Result Value) (w : World) :
  sockets (onmessage P parsed w) = sockets w
  /\ timers (onmessage P parsed w) = timers w.
Proof.
  unfold onmessage. destruct parsed as [v|x]; [|split; reflexivity].
  destruct (is_connection v); [split; reflexivity|].
  destruct (gaitEntry P v (ticks w)) as [[e|x] k]; [|split; reflexivity].
  cbv zeta.
  destruct (20 <? _)%nat; split; reflexivity.
Qed.

Lemma slice_last_length {A : Type} (n : nat) (l : list A) :
  (List.length (slice_last n l) <= n)%nat.
Proof. unfold slice_last. rewrite length_skipn. lia. Qed.

Lemma fetchHistoricalData_frame (o : FetchOutcome) (w : World) :
  let w' := fetchHistoricalData_resolved P o w in
  sockets w' = sockets w /\ timers w' = timers w
  /\ ((List.length (buffer w) <= 20)%nat ->
      (List.length (buffer w') <= 20)%nat).
Proof.
  cbv zeta. unfold fetchHistoricalData_resolved.
  match goal with
  | |- context [fetchMLGaitScore_request P (buffer ?x) ?x] => set (w1 := x)
  end.
  destruct (fetchMLGaitScore_request_frame (buffer w1) w1)
    as (_ & Hh & Hd & Hs & Ht).
  assert (Hb : buffer (fetchMLGaitScore_request P (buffer w1) w1) = buffer w1)
    by (unfold buffer at 1 3; now rewrite Hh, Hd).
  rewrite Hs, Ht, Hb. clear Hh Hd Hs Ht Hb.
  assert (Hcatch : forall e w0,
             sockets (catch_historical e w0) = sockets w0
             /\ timers (catch_historical e w0) = timers w0
             /\ List.length (buffer (catch_historical e w0)) = 0%nat).
  { intros e w0. repeat split. unfold catch_historical.
    now rewrite buffer_install_empty. }
  subst w1.
  destruct o as [e|[|] status [result|e]].
  - destruct (Hcatch e w) as (-> & -> & ->). repeat split. lia.
  - destruct (envelope P result (ticks w)) as [[[mapped|]|e] k].
    + rewrite buffer_install. repeat split.
      intros _. apply slice_last_length.
    + rewrite buffer_install_empty. repeat split. cbn. lia.
    + destruct (Hcatch e (set_ticks k w)) as (-> & -> & ->).
      repeat split. lia.
  - destruct (Hcatch e w) as (-> & -> & ->). repeat split. lia.
  - repeat split. tauto.
  - repeat split. tauto.
Qed.

(** One event leaves at most one more thing pending than there was: a
    close turns a live socket into a timer, a timer into at most one
    live socket, and nothing else touches either. *)
Lemma step_pending (API_BASE : string) (ev : Event) (w w' : World) :
  step P API_BASE ev w = Some w' ->
  (live w' + List.length (timers w') <= live w + List.length (timers w))%nat.
Proof.
  unfold step. destruct ev as [ws|ws parsed|ws|ws|i|o|o|].
  - unfold readyState.
    destruct (nth ws (sockets w) CLOSED) eqn:Hs; try discriminate.
    intros [= <-]. rewrite !live_count.
    cbn [onopen setState sockets timers set_sockets].
    rewrite count_live_update_same; [lia|]. now rewrite Hs.
  - destruct (readyState w ws); try discriminate. intros [= <-].
    destruct (onmessage_frame parsed w) as (Hs & Ht).
    rewrite !live_count, Hs, Ht. lia.
  - destruct (is_closed (readyState w ws)); [discriminate|].
    intros [= <-]. apply Nat.le_refl.
  - destruct (is_closed (readyState w ws)) eqn:Hc; [discriminate|].
    intros [= <-]. rewrite !live_count.
    cbn [onclose setState set_timers set_sockets sockets timers].
    rewrite (count_live_update_closed ws (sockets w) Hc).
    rewrite length_app. cbn. lia.
  - destruct (Nat.ltb_spec i (List.length (timers w))); [|discriminate].
    intros [= <-].
    destruct (connectWebSocket_frame (ApiConfig.WS_URL API_BASE)
                (set_timers (remove_nth i (timers w)) w)) as (Hl & Ht & _).
    rewrite Ht. cbn [timers set_timers].
    rewrite (length_remove_nth i (timers w)) by assumption.
    change (live (set_timers (remove_nth i (timers w)) w)) with (live w) in Hl.
    lia.
  - destruct (historicalPending w); [|discriminate]. intros [= <-].
    destruct (fetchHistoricalData_frame o (set_historicalPending false w))
      as (Hs & Ht & _).
    rewrite !live_count, Hs, Ht. apply Nat.le_refl.
  - destruct (posted w); [|discriminate]. intros [= <-]. apply Nat.le_refl.
  - intros [= <-]. unfold cleanup.
    destruct (wsRef w) as [ws|]; [|lia].
    rewrite !live_count. cbn [sockets timers set_sockets].
    rewrite count_live_update_same; [lia|].
    now destruct (nth ws (sockets w) CLOSED).
Qed.

Lemma step_bounded (API_BASE : string) (ev : Event) (w w' : World) :
  step P API_BASE ev w = Some w' ->
  (List.length (buffer w) <= 20)%nat ->
  (List.length (buffer w') <= 20)%nat.
Proof.
  unfold step. destruct ev as [ws|ws parsed|ws|ws|i|o|o|].
  - destruct (readyState w ws); try discriminate. now intros [= <-].
  - destruct (readyState w ws); try discriminate. intros [= <-].
    apply onmessage_bounded.
  - destruct (is_closed (readyState w ws)); [discriminate|]. now intros [= <-].
  - destruct (is_closed (readyState w ws)); [discriminate|]. now intros [= <-].
  - destruct (i <? List.length (timers w))%nat; [|discriminate].
    intros [= <-].
    destruct (connectWebSocket_frame (ApiConfig.WS_URL API_BASE)
                (set_timers (remove_nth i (timers w)) w)) as (_ & _ & Hb).
    now rewrite Hb.
  - destruct (historicalPending w); [|discriminate]. intros [= <-].
    apply (fetchHistoricalData_frame o (set_historicalPending false w)).
  - destruct (posted w); [|discriminate]. now intros [= <-].
  - intros [= <-]. unfold cleanup. now destruct (wsRef w).
Qed.

Lemma mount_pending (API_BASE : string) :
  (live (mount P API_BASE) + List.length (timers (mount P API_BASE)) <= 1)%nat
  /\ buffer (mount P API_BASE) = [].
Proof.
  set (w1 := checkConfig API_BASE (ApiConfig.WS_URL API_BASE) initialWorld).
  assert (H1 : live w1 = 0%nat /\ timers w1 = [] /\ buffer w1 = []).
  { unfold w1, checkConfig. destruct (_ || _); repeat split. }
  destruct H1 as (Hl1 & Ht1 & Hb1).
  destruct (connectWebSocket_frame (ApiConfig.WS_URL API_BASE) w1)
    as (Hl & Ht & Hb).
  destruct (mount_shape API_BASE) as [->| ->]; fold w1;
    [|change (live (set_historicalPending true ?x)) with (live x);
      change (timers (set_historicalPending true ?x)) with (timers x);
      change (buffer (set_historicalPending true ?x)) with (buffer x)];
    rewrite Ht, Ht1, Hb, Hb1; cbn [List.length]; split; try reflexivity; lia.
Qed.

(** Along every run of a mounted hook at most one of a live socket and a
    reconnect timer exists, and the buffer never exceeds twenty. *)
Lemma run_invariant (API_BASE : string) (evs : list Event) (w0 w : World) :
  run P API_BASE evs w0 = Some w ->
  (live w0 + List.length (timers w0) <= 1)%nat ->
  (List.length (buffer w0) <= 20)%nat ->
  (live w + List.length (timers w) <= 1)%nat
  /\ (List.length (buffer w) <= 20)%nat.
Proof.
  revert w0. induction evs as [|ev rest IH]; intros w0 Hrun Hp Hb.
  - injection Hrun as <-. now split.
  - cbn [run] in Hrun.
    destruct (step P API_BASE ev w0) as [w1|] eqn:Hstep; [|discriminate].
    apply (IH w1 Hrun).
    + pose proof (step_pending _ _ _ _ Hstep). lia.
    + now apply (step_bounded _ _ _ _ Hstep).
Qed.

Lemma reachable_invariant (API_BASE : string) (evs : list Event) (w : World) :
  run P API_BASE evs (mount P API_BASE) = Some w ->
  (live w + List.length (timers w) <= 1)%nat
  /\ (List.length (buffer w) <= 20)%nat.
Proof.
  intros Hrun. destruct (mount_pending API_BASE) as (Hp & Hb).
  apply (run_invariant API_BASE evs _ w Hrun Hp). rewrite Hb. cbn. lia.
Qed.

(** C9.  The close handler clears the connectivity flag and adds exactly
    one timer, of 3000 ms, to those pending.  In every world a mounted
    hook can reach at most one reconnect timer is pending; a close event
    there leaves exactly one pending, the one it has just set. *)
Theorem C9_close_schedules_one_reconnect :
  (forall w,
      isConnected (state (onclose w)) = false
      /\ timers (onclose w) = (timers w ++ [3000])%list)
  /\ (forall API_BASE evs w,
         run P API_BASE evs (mount P API_BASE) = Some w ->
         (List.length (timers w) <= 1)%nat
         /\ (forall ws w',
                step P API_BASE (EvClose ws) w = Some w' ->
                isConnected (state w') = false /\ timers w' = [3000])).
Proof.
  split; [intros w; split; reflexivity|].
  intros API_BASE evs w Hrun.
  destruct (reachable_invariant API_BASE evs w Hrun) as (Hp & _).
  split; [lia|].
  intros ws w' Hstep. unfold step in Hstep.
  destruct (is_closed (readyState w ws)) eqn:Hc; [discriminate|].
  injection Hstep as <-. split; [reflexivity|].
  cbn [onclose setState set_timers set_sockets timers].
  pose proof (count_live_update_closed ws (sockets w) Hc) as Hlive.
  rewrite live_count in Hp.
  destruct (timers w) as [|t rest]; [reflexivity|cbn in Hp; lia].
Qed.

End HookFacts.

(* ================================================================== *)
(** ** The statements at concrete inputs *)
(* ================================================================== *)

Section Instances.
Import JS Hook.

(** C8 on a handshake message that reaches a freshly mounted hook. *)
Lemma C8_witness_handshake :
  onmessage examplePlatform
    (Ok (VObj [("type", VStr "connection"); ("message", VStr "hello")]))
    mounted
  = mounted.
Proof.
  apply C8_handshake_and_unparseable_ignored.
  right. eexists. split; reflexivity.
Defined.

(** C6 on a record with a [null] cadence and no knee force. *)
Lemma C6_witness_null_cadence :
  exists e k',
    gaitEntry examplePlatform
      (VObj [("cadence", VNull); ("frequency", VNum (ofZ 2))]) 0%nat
    = (Ok e, k')
    /\ cadence e = VNum zero /\ kneeForce e = VNum zero /\ sensors e = [].
Proof.
  destruct (C6_falsy_numeric_fields_become_zero examplePlatform
              (VObj [("cadence", VNull); ("frequency", VNum (ofZ 2))])
              VUndef 0%nat)
    as (e & k' & He & _ & Hsens & Hcad & _ & _ & _ & _ & _ & Hknee & _);
    [discriminate|discriminate|reflexivity|].
  exists e, k'. split; [exact He|].
  split; [apply Hcad; reflexivity|].
  split; [apply Hknee; reflexivity|exact Hsens].
Defined.

(** C7 (amended) on a record with a numeric cadence, a [null] knee force
    and no timestamp, normalized at the first reading of the clock. *)
Lemma C7_witness_typed_record :
  exists e k',
    gaitEntry examplePlatform
      (VObj [("cadence", VNum (ofZ 90)); ("kneeForce", VNull)]) 0%nat
    = (Ok e, k')
    /\ forallb is_number (numeric_outputs e) = true
    /\ timestamp e = ofZ 1700000000000.
Proof.
  destruct (C7_normalizer_on_typed_records examplePlatform
              (VObj [("cadence", VNum (ofZ 90)); ("kneeForce", VNull)])
              VUndef 0%nat)
    as (e & k' & He & _ & Hnum & Hnow & _);
    [discriminate|discriminate|reflexivity|reflexivity|].
  exists e, k'. split; [exact He|].
  split; [apply Hnum; reflexivity|apply Hnow; reflexivity].
Defined.

(** C7 as stated fails three ways: a string cadence passes through
    unchanged and is no number; a [null] record makes the normalizer
    throw; so does a timestamp that is an object whose [toString] and
    [valueOf] are not callable. *)
Lemma C7_counterexample_malformed_records :
  (exists e,
      gaitEntry examplePlatform (VObj [("cadence", VStr "fast")]) 0%nat
      = (Ok e, 1%nat)
      /\ cadence e = VStr "fast"
      /\ forallb is_number (numeric_outputs e) = false)
  /\ gaitEntry examplePlatform VNull 0%nat = (Throw TypeError, 0%nat)
  /\ gaitEntry examplePlatform
       (VObj [("timestamp",
               VObj [("toString", VNum (ofZ 1)); ("valueOf", VNum (ofZ 2))])])
       0%nat
     = (Throw TypeError, 0%nat).
Proof.
  split; [|split; reflexivity].
  eexists. split; [reflexivity|]. split; reflexivity.
Qed.

(** C3 on a freshly mounted hook that has received one record and one
    payload that does not parse, and then receives a second record. *)
Lemma C3_witness_second_record :
  let w1 := deliver examplePlatform [Ok (sample 1); Throw SyntaxError] mounted in
  let w2 := onmessage examplePlatform (Ok (sample 2)) w1 in
  (List.length (buffer w2) <= 20)%nat
  /\ nth_error (buffer w2) 0 = Some (normalized (sample 2) (ofZ 2))
  /\ buffer w2
     = [normalized (sample 2) (ofZ 2); normalized (sample 1) (ofZ 1)].
Proof.
  cbv zeta.
  destruct (C3_prepend_keeps_bound_and_order examplePlatform
              [Ok (sample 1); Throw SyntaxError] mounted
              (sample 2) (normalized (sample 2) (ofZ 2)) 0%nat)
    as (Hlen & Hhead & Hbuf).
  - apply Nat.leb_le. reflexivity.
  - reflexivity.
  - reflexivity.
  - split; [exact Hlen|]. split; [exact Hhead|].
    rewrite Hbuf. reflexivity.
Defined.

(** C9 on a run in which the first socket opens and closes, its timer
    reconnects, and the second socket closes before it has opened. *)
Lemma C9_witness_two_closes :
  exists w,
    run examplePlatform exampleBase [EvOpen 0%nat; EvClose 0%nat; EvTimer 0%nat; EvClose 1%nat] mounted
    = Some w
    /\ (List.length (timers w) <= 1)%nat
    /\ timers w = [3000].
Proof.
  eexists. split; [vm_compute; reflexivity|].
  split.
  - apply (proj2 (C9_close_schedules_one_reconnect examplePlatform) exampleBase
             [EvOpen 0%nat; EvClose 0%nat; EvTimer 0%nat; EvClose 1%nat]).
    vm_compute. reflexivity.
  - reflexivity.
Defined.



End Instances.

(* ================================================================== *)
(** ** Further properties of the endpoint resolver *)
(* ================================================================== *)

Section ResolverMore.
Import ApiConfig.

Lemma WS_URL_cases (s : string) :
  WS_URL s =
  if startsWith "https://" s then "wss://" ++ skip 8 s
  else if startsWith "http://" s then "ws://" ++ skip 7 s
  else s.
Proof.
  unfold WS_URL, replace_scheme, match_scheme.
  do 8 (destruct s as [|? s]; cbn [startsWith skip andb]; try reflexivity;
        match goal with
        | |- context [Ascii.eqb ?a ?b] =>
            destruct (Ascii.eqb_spec a b); subst;
            cbn [startsWith skip andb append]; try reflexivity
        end).
  all: cbv; reflexivity.
Qed.

Lemma WS_URL_shape (s : string) :
  (exists rest, WS_URL s = "wss://" ++ rest)
  \/ (exists rest, WS_URL s = "ws://" ++ rest)
  \/ WS_URL s = s.
Proof.
  rewrite WS_URL_cases.
  destruct (startsWith "https://" s); [left; eauto|].
  destruct (startsWith "http://" s); [right; left; eauto|].
  right; right; reflexivity.
Qed.

(** X1.  On every string the resolver does one of three things: a
    leading [https://] becomes [wss://], a leading [http://] becomes
    [ws://], and a string with neither scheme (a [ws://] endpoint, a
    bare host, the empty string) comes back unchanged. *)
Theorem X1_resolver_by_cases (s : string) :
  WS_URL s =
  if startsWith "https://" s then "wss://" ++ skip 8 s
  else if startsWith "http://" s then "ws://" ++ skip 7 s
  else s.
Proof. exact (WS_URL_cases s). Qed.

(** X2.  Resolving an endpoint that has already been resolved changes
    nothing. *)
Theorem X2_resolver_idempotent (s : string) : WS_URL (WS_URL s) = WS_URL s.
Proof.
  destruct (WS_URL_shape s) as [[rest H]|[[rest H]|H]]; rewrite H.
  - cbv. reflexivity.
  - cbv. reflexivity.
  - exact H.
Qed.

Lemma WS_URL_nonempty (s : string) :
  String.eqb s "" = false -> String.eqb (WS_URL s) "" = false.
Proof.
  intros Hs.
  destruct (WS_URL_shape s) as [[rest H]|[[rest H]|H]]; rewrite H;
    [reflexivity|reflexivity|exact Hs].
Qed.

Lemma API_BASE_nonempty (env : option string) :
  String.eqb (API_BASE env) "" = false.
Proof.
  unfold API_BASE. destruct env as [s|]; [|reflexivity].
  destruct (String.eqb s "") eqn:Hs; [reflexivity|exact Hs].
Qed.

End ResolverMore.

(* ================================================================== *)
(** ** Further properties of the hook *)
(* ================================================================== *)

Section HookMore.
Import JS Hook.

Variable P : Platform.

(** X3.  With the base endpoint of [apiConfig.ts], whatever the
    environment holds, the configuration check passes: mounting records
    no error, leaves the hook loading and sets no timer.  When the
    platform accepts the streaming endpoint there is exactly one socket,
    connecting, it is the current one, and the historical request is in
    flight; when it refuses the endpoint there is no socket and no
    request has been sent. *)
Theorem X3_fallback_base_is_configured (env : option string) :
  let base := ApiConfig.API_BASE env in
  state (mount P base) = initialState
  /\ timers (mount P base) = []
  /\ (WebSocket_accepts P (ApiConfig.WS_URL base) = true ->
      sockets (mount P base) = [CONNECTING]
      /\ wsRef (mount P base) = Some 0%nat
      /\ historicalPending (mount P base) = true)
  /\ (WebSocket_accepts P (ApiConfig.WS_URL base) = false ->
      sockets (mount P base) = []
      /\ wsRef (mount P base) = None
      /\ historicalPending (mount P base) = false).
Proof.
  cbv zeta.
  pose proof (API_BASE_nonempty env) as Hb.
  pose proof (WS_URL_nonempty _ Hb) as Hw.
  split; [now apply state_mount|].
  unfold mount, connectWebSocket_throws, checkConfig, connectWebSocket.
  rewrite Hb, Hw. cbn [orb negb andb].
  destruct (WebSocket_accepts P (ApiConfig.WS_URL (ApiConfig.API_BASE env)));
    repeat split; discriminate.
Qed.

Lemma is_connection_object (v : Value) :
  is_connection v = true ->
  exists fields, v = VObj fields /\ lookup "type" fields = VStr "connection".
Proof.
  intros H. destruct v as [| | | | | |fields]; try discriminate H.
  exists fields. split; [reflexivity|].
  unfold is_connection in H. cbn [get] in H.
  apply andb_true_iff in H as [_ H].
  destruct (lookup "type" fields) as [| | | |s| |]; try discriminate H.
  apply String.eqb_eq in H. now subst.
Qed.

(** X4.  The handler takes a parsed message for a handshake exactly when
    it is an object whose [type] property is the string ["connection"];
    [null], arrays, primitives and objects with any other [type] go on
    to the normalizer. *)
Theorem X4_handshake_test_characterised (v : Value) :
  is_connection v = true
  <-> exists fields, v = VObj fields /\ lookup "type" fields = VStr "connection".
Proof.
  split; [apply is_connection_object|].
  intros (fields & -> & H). now apply is_connection_handshake.
Qed.

Lemma field_non_object (v : Value) (k : string) :
  (forall fields, v <> VObj fields) -> field v k = VUndef.
Proof.
  intros H. destruct v; try reflexivity. now destruct (H fields).
Qed.

Lemma firstn_cons_bounded {A : Type} (e : A) (l : list A) :
  (List.length l <= 20)%nat ->
  (if (20 <? S (List.length l))%nat then removelast (e :: l) else e :: l)
  = firstn 20 (e :: l).
Proof.
  intros Hlen. destruct (Nat.ltb_spec 20 (S (List.length l))).
  - rewrite removelast_firstn_len. cbn [List.length Nat.pred].
    f_equal. lia.
  - symmetry. apply firstn_all2. cbn [List.length]. lia.
Qed.

(** X5.  A payload that parses to something other than an object or
    [null] (a number, a string, a boolean, an array) is not rejected: it
    is normalized to a record of zeros stamped with the clock, which is
    put at the front of the buffer like any other record. *)
Theorem X5_non_object_payload_is_blank_record (v : Value) (w : World) :
  (forall fields, v <> VObj fields) -> v <> VNull -> v <> VUndef ->
  (List.length (buffer w) <= 20)%nat ->
  gaitEntry P v (ticks w)
  = (Ok (zeroEntry (TimeClip (Date_now P (ticks w)))), S (ticks w))
  /\ buffer (onmessage P (Ok v) w)
     = firstn 20 (zeroEntry (TimeClip (Date_now P (ticks w))) :: buffer w).
Proof.
  intros Hobj H1 H2 Hlen.
  assert (He : gaitEntry P v (ticks w)
               = (Ok (zeroEntry (TimeClip (Date_now P (ticks w)))),
                  S (ticks w))).
  { rewrite gaitEntry_unfold by assumption.
    unfold normalized. rewrite !field_non_object by assumption.
    reflexivity. }
  split; [exact He|].
  assert (Hc : is_connection v = false).
  { destruct (is_connection v) eqn:Hc; [|reflexivity].
    apply is_connection_object in Hc as (fields & -> & _).
    now destruct (Hobj fields). }
  destruct (onmessage_accepted P v _ _ w Hc He) as (Hb & _).
  rewrite Hb. now apply firstn_cons_bounded.
Qed.

Lemma set_ticks_same (w : World) : set_ticks (ticks w) w = w.
Proof. now destruct w. Qed.

(** X6.  A payload that parses but on which the normalizer throws (the
    value [null], or a record whose truthy timestamp does not convert to
    a primitive) is dropped by the [catch]: the world stays as it was. *)
Theorem X6_throwing_payload_dropped (v : Value) (w : World) :
  v = VNull
  \/ (ToBoolean (field v "timestamp") = true
      /\ exists x, ToPrimitive P (field v "timestamp") = Throw x) ->
  onmessage P (Ok v) w = w.
Proof.
  intros Hv. unfold onmessage.
  destruct (is_connection v); [reflexivity|].
  destruct (gaitEntry_throws P v (ticks w)) as (x & ->).
  - destruct Hv as [->|Hts]; [now left|right; right; exact Hts].
  - apply set_ticks_same.
Qed.

Lemma or_truthy (a b : Value) :
  ToBoolean b = true -> ToBoolean (or a b) = true.
Proof. intros Hb. unfold or. now destruct (ToBoolean a) eqn:Ha. Qed.

(** X11.  Whatever the outcome of the scoring request, the score and
    the confidence returned are truthy: never [0], [NaN], [null],
    [undefined], [false] or the empty string. *)
Theorem X11_score_always_truthy (o : FetchOutcome) :
  ToBoolean (score (fetchMLGaitScore_result o)) = true
  /\ ToBoolean (confidence (fetchMLGaitScore_result o)) = true.
Proof.
  assert (Hf : ToBoolean (score fallback) = true
               /\ ToBoolean (confidence fallback) = true)
    by (split; reflexivity).
  destruct o as [e|[|] status [result|e]]; try exact Hf.
  cbn [fetchMLGaitScore_result].
  destruct (get result "data") as [d|e]; [|exact Hf].
  split; apply or_truthy; reflexivity.
Qed.

(** *** Sequences of streamed records *)

Lemma mapM_cons {A B : Type} (f : A -> M B) (x : A) (l : list A)
  (ys : list B) (k k' : nat) :
  mapM f (x :: l) k = (Ok ys, k') ->
  exists y rest k1,
    f x k = (Ok y, k1) /\ mapM f l k1 = (Ok rest, k') /\ ys = y :: rest.
Proof.
  cbn [mapM]. unfold bind, ret.
  destruct (f x k) as [[y|e] k1]; [|discriminate].
  destruct (mapM f l k1) as [[rest|e] k2] eqn:Hrest; [|discriminate].
  intros [= <- <-]. exists y, rest, k1. now rewrite Hrest.
Qed.

Lemma mapM_length {A B : Type} (f : A -> M B) (l : list A)
  (ys : list B) (k k' : nat) :
  mapM f l k = (Ok ys, k') -> List.length ys = List.length l.
Proof.
  revert ys k. induction l as [|x rest IH]; intros ys k H.
  - injection H as <- _. reflexivity.
  - apply mapM_cons in H as (y & ys' & k1 & _ & Hrest & ->).
    cbn [List.length]. f_equal. now apply (IH ys' k1).
Qed.

Lemma ticks_onmessage_accepted
  (v : Value) (e : GaitDataEntry) (k : nat) (w : World) :
  is_connection v = false ->
  gaitEntry P v (ticks w) = (Ok e, k) ->
  ticks (onmessage P (Ok v) w) = k.
Proof.
  intros Hc He. unfold onmessage. rewrite Hc, He. cbv zeta.
  now destruct (20 <? _)%nat.
Qed.

Lemma firstn_app_firstn {A : Type} (n : nat) (a b : list A) :
  firstn n (a ++ firstn n b) = firstn n (a ++ b).
Proof.
  rewrite !firstn_app, firstn_firstn. do 2 f_equal. lia.
Qed.

(** X7.  Deliver, to a buffer of at most twenty records, a sequence of
    messages that are no handshakes and that the normalizer accepts one
    after the other: the buffer then holds the first twenty of the new
    records, latest first, followed by the old ones.  Streaming keeps
    the most recent twenty. *)
Theorem X7_stream_keeps_latest_20
  (vs : list Value) (entries : list GaitDataEntry) (k : nat) (w : World) :
  (List.length (buffer w) <= 20)%nat ->
  forallb (fun v => negb (is_connection v)) vs = true ->
  mapM (gaitEntry P) vs (ticks w) = (Ok entries, k) ->
  buffer (deliver P (map Ok vs) w) = firstn 20 (rev entries ++ buffer w).
Proof.
  revert entries w. induction vs as [|v rest IH]; intros entries w Hlen Hc Hm.
  - injection Hm as <- _. cbn [deliver map fold_left rev app].
    symmetry. now apply firstn_all2.
  - apply mapM_cons in Hm as (e & es & k1 & He & Hrest & ->).
    cbn [forallb] in Hc. apply andb_true_iff in Hc as [Hv Hc].
    apply negb_true_iff in Hv.
    cbn [map deliver fold_left].
    change (fold_left (fun w' parsed => onmessage P parsed w') (map Ok rest)
              (onmessage P (Ok v) w))
      with (deliver P (map Ok rest) (onmessage P (Ok v) w)).
    destruct (onmessage_accepted P v e k1 w Hv He) as (Hb & _).
    rewrite firstn_cons_bounded in Hb by assumption.
    rewrite (IH es (onmessage P (Ok v) w)).
    + rewrite Hb, firstn_app_firstn. cbn [rev].
      now rewrite <- app_assoc.
    + now apply onmessage_bounded.
    + exact Hc.
    + now rewrite (ticks_onmessage_accepted v e k1 w Hv He).
Qed.

(** *** More on the historical backfill *)

(** X8.  A success envelope of at most twenty records that all
    normalize replaces the buffer, whatever it held, by all of them,
    latest first; the same array is published, the loading flag is
    cleared and the error field is left as it was. *)
Theorem X8_backfill_up_to_20
  (w : World) (status : Z) (items : list Value)
  (entries : list GaitDataEntry) (k : nat) :
  (List.length items <= 20)%nat ->
  mapM (mapItem P) items (ticks w) = (Ok entries, k) ->
  let w' := fetchHistoricalData_resolved P
              (Response true status
                 (Ok (VObj [("success", VBool true); ("data", VArr items)])))
              w in
  buffer w' = rev entries
  /\ published w' = Some (rev entries)
  /\ loading (state w') = false
  /\ error (state w') = error (state w).
Proof.
  intros Hlen Hm. cbv zeta.
  destruct (fetchHistoricalData_success P w status items entries k Hm)
    as (Hb & Hp & Hl).
  rewrite firstn_all2 in Hb, Hp
    by (rewrite (mapM_length _ _ _ _ _ Hm); exact Hlen).
  split; [exact Hb|]. split; [exact Hp|]. split; [exact Hl|].
  unfold fetchHistoricalData_resolved, envelope, bind, lift, ret.
  cbn [get lookup String.eqb Ascii.eqb Bool.eqb ToBoolean].
  rewrite Hm.
  match goal with
  | |- context [fetchMLGaitScore_request P ?d ?x] =>
      destruct (fetchMLGaitScore_request_frame P d x) as (Hs & _)
  end.
  now rewrite Hs.
Qed.

Lemma ToPrimitive_throw_is_TypeError (v : Value) (x : Exn) :
  ToPrimitive P v = Throw x -> x = TypeError.
Proof.
  unfold ToPrimitive.
  destruct v; try discriminate;
    (destruct (ObjectToPrimitive P _) as [p|];
     [destruct (is_primitive p); [discriminate|]|]); now intros [= <-].
Qed.

Lemma gaitEntry_throw_is_TypeError (v : Value) (k k' : nat) (x : Exn) :
  gaitEntry P v k = (Throw x, k') -> x = TypeError.
Proof.
  intros H.
  assert (Hcases : v = VNull \/ v = VUndef \/ (v <> VNull /\ v <> VUndef))
    by (destruct v; auto; right; right; split; discriminate).
  destruct Hcases as [->|[->|[H1 H2]]]; [now injection H as <-..|].
  rewrite gaitEntry_unfold in H by assumption.
  destruct (ToBoolean (field v "timestamp")); [|discriminate H].
  unfold Date_getTime in H.
  destruct (ToPrimitive P (field v "timestamp")) as [p|y] eqn:Hp;
    [discriminate H|].
  injection H as <- _. now apply ToPrimitive_throw_is_TypeError in Hp.
Qed.

Lemma mapM_null_item (items : list Value) (k : nat) :
  In VNull items ->
  exists k', mapM (mapItem P) items k = (Throw TypeError, k').
Proof.
  revert k. induction items as [|v rest IH]; intros k Hin; [destruct Hin|].
  cbn [mapM]. unfold bind.
  change (mapItem P v k) with (gaitEntry P v k).
  destruct (gaitEntry P v k) as [[e|x] k1] eqn:He.
  - destruct Hin as [->|Hin]; [discriminate He|].
    destruct (IH k1 Hin) as (k' & ->). now exists k'.
  - apply gaitEntry_throw_is_TypeError in He as ->. now exists k1.
Qed.

(** What the [catch] block leaves behind once the scoring request has
    been issued. *)
Lemma fetchMLGaitScore_request_view (d : list GaitDataEntry) (w : World) :
  buffer (fetchMLGaitScore_request P d w) = buffer w
  /\ published (fetchMLGaitScore_request P d w) = published w
  /\ state (fetchMLGaitScore_request P d w) = state w.
Proof.
  destruct (fetchMLGaitScore_request_frame P d w) as (Hs & Hh & Hd & _).
  unfold buffer, published. now rewrite Hs, Hh, Hd.
Qed.

Lemma after_catch_historical (e : Exn) (w0 : World) :
  let w' := fetchMLGaitScore_request P (buffer (catch_historical e w0))
              (catch_historical e w0) in
  loading (state w') = false /\ buffer w' = [] /\ published w' = Some []
  /\ error (state w') = Some (Caught e).
Proof.
  cbv zeta.
  destruct (fetchMLGaitScore_request_view
              (buffer (catch_historical e w0)) (catch_historical e w0))
    as (-> & -> & ->).
  unfold catch_historical.
  rewrite buffer_install_empty, published_install_empty.
  repeat split.
Qed.

(** X9.  In a success envelope whose [data] is truthy, one [null] item
    in the array, or a [data] that is no array, discards the whole
    backfill: the [TypeError] is recorded, the buffer and the published
    data are empty and the loading flag is cleared. *)
Theorem X9_backfill_poisoned_by_null
  (w : World) (status : Z) (d : Value) :
  ToBoolean d = true ->
  (forall items, d = VArr items -> In VNull items) ->
  let w' := fetchHistoricalData_resolved P
              (Response true status
                 (Ok (VObj [("success", VBool true); ("data", d)])))
              w in
  loading (state w') = false /\ buffer w' = [] /\ published w' = Some []
  /\ error (state w') = Some (Caught TypeError).
Proof.
  intros Hd Hnull. cbv zeta.
  assert (Henv : exists k,
             envelope P (VObj [("success", VBool true); ("data", d)])
               (ticks w) = (Throw TypeError, k)).
  { unfold envelope, bind, lift, ret.
    cbn [get lookup String.eqb Ascii.eqb Bool.eqb ToBoolean].
    rewrite Hd.
    destruct d as [| | | | |items|fields]; try now eexists.
    destruct (mapM_null_item items (ticks w) (Hnull items eq_refl))
      as (k & ->).
    now exists k. }
  destruct Henv as (k & Henv).
  unfold fetchHistoricalData_resolved. rewrite Henv.
  apply after_catch_historical.
Qed.

(** X10.  However the historical request ends, the scoring request that
    follows is computed from the buffer as the backfill has left it:
    when the features of its records are numbers, the vector posted is
    their means, and the fallback sample's values when it is empty. *)
Theorem X10_backfill_posts_features_of_buffer
  (o : FetchOutcome) (w : World) :
  let w' := fetchHistoricalData_resolved P o w in
  forallb numeric_features (buffer w') = true ->
  posted w' = Some (featuresOf (buffer w')).
Proof.
  cbv zeta. unfold fetchHistoricalData_resolved.
  match goal with
  | |- context [fetchMLGaitScore_request P (buffer ?x) ?x] => set (w1 := x)
  end.
  destruct (fetchMLGaitScore_request_frame P (buffer w1) w1)
    as (_ & Hh & Hd & _).
  assert (Hb : buffer (fetchMLGaitScore_request P (buffer w1) w1) = buffer w1)
    by (unfold buffer at 1 3; now rewrite Hh, Hd).
  rewrite Hb. clear Hh Hd Hb. intros Hnum.
  unfold fetchMLGaitScore_request.
  destruct (buffer w1) as [|d rest] eqn:Hbuf.
  - now rewrite features_empty.
  - rewrite features_numbers by (try discriminate; exact Hnum).
    reflexivity.
Qed.

(** *** What a step does to the state, the published data and the buffer *)

Lemma never_taken_back_refl (s : GaitMetricsState) : never_taken_back s s.
Proof. solve_kept. Qed.

Lemma never_taken_back_trans (s1 s2 s3 : GaitMetricsState) :
  never_taken_back s1 s2 -> never_taken_back s2 s3 -> never_taken_back s1 s3.
Proof.
  unfold never_taken_back. intros (A1 & A2 & A3 & A4) (B1 & B2 & B3 & B4).
  repeat split; auto.
Qed.

(** The state after the historical request has ended: the one before, or
    that one with the loading flag cleared, data published and possibly
    an error recorded; the connectivity flag is as before. *)
Lemma fetchHistoricalData_state (o : FetchOutcome) (w : World) :
  let s := state w in
  let s' := state (fetchHistoricalData_resolved P o w) in
  never_taken_back s s' /\ isConnected s' = isConnected s.
Proof.
  cbv zeta. unfold fetchHistoricalData_resolved.
  match goal with
  | |- context [fetchMLGaitScore_request P (buffer ?x) ?x] => set (w1 := x)
  end.
  destruct (fetchMLGaitScore_request_view (buffer w1) w1) as (_ & _ & ->).
  subst w1.
  destruct o as [e|[|] status [result|e]];
    try (split; [solve_kept|reflexivity]).
  destruct (envelope P result (ticks w)) as [[[mapped|]|e] k];
    (split; [solve_kept|reflexivity]).
Qed.

Lemma onmessage_state (parsed : Result Value) (w : World) :
  let s := state w in
  let s' := state (onmessage P parsed w) in
  never_taken_back s s' /\ isConnected s' = isConnected s.
Proof.
  cbv zeta. unfold onmessage.
  destruct parsed as [v|x]; [|split; [solve_kept|reflexivity]].
  destruct (is_connection v); [split; [solve_kept|reflexivity]|].
  destruct (gaitEntry P v (ticks w)) as [[e|x] k];
    [|split; [solve_kept|reflexivity]].
  cbv zeta. destruct (20 <? _)%nat; (split; [solve_kept|reflexivity]).
Qed.

Lemma connectWebSocket_state (url : string) (w : World) :
  state (connectWebSocket P url w) = state w
  /\ published (connectWebSocket P url w) = published w
  /\ (live w <= live (connectWebSocket P url w))%nat.
Proof.
  unfold connectWebSocket.
  destruct (String.eqb url ""); [repeat split; lia|].
  destruct (WebSocket_accepts P url); [|repeat split; lia].
  repeat split. rewrite !live_count. cbn [sockets set_wsRef set_sockets].
  rewrite count_live_app. lia.
Qed.

Lemma step_never_takes_back (API_BASE : string) (ev : Event) (w w' : World) :
  step P API_BASE ev w = Some w' -> never_taken_back (state w) (state w').
Proof.
  unfold step. destruct ev as [ws|ws parsed|ws|ws|i|o|o|].
  - destruct (readyState w ws); try discriminate. intros [= <-]. solve_kept.
  - destruct (readyState w ws); try discriminate. intros [= <-].
    apply onmessage_state.
  - destruct (is_closed (readyState w ws)); [discriminate|].
    intros [= <-]. solve_kept.
  - destruct (is_closed (readyState w ws)); [discriminate|].
    intros [= <-]. solve_kept.
  - destruct (i <? List.length (timers w))%nat; [|discriminate].
    intros [= <-].
    destruct (connectWebSocket_state (ApiConfig.WS_URL API_BASE)
                (set_timers (remove_nth i (timers w)) w)) as (-> & _).
    solve_kept.
  - destruct (historicalPending w); [|discriminate]. intros [= <-].
    apply (fetchHistoricalData_state o (set_historicalPending false w)).
  - destruct (posted w); [|discriminate]. intros [= <-]. solve_kept.
  - intros [= <-]. unfold cleanup. destruct (wsRef w); solve_kept.
Qed.

(** X12.  No event takes back what the consumer has been given: along
    every run, from any world, a cleared loading flag stays cleared,
    published data never returns to [null], a scoring result is never
    removed, and an error, once recorded, is never cleared. *)
Theorem X12_nothing_taken_back
  (API_BASE : string) (evs : list Event) (w0 w : World) :
  run P API_BASE evs w0 = Some w -> never_taken_back (state w0) (state w).
Proof.
  revert w0. induction evs as [|ev rest IH]; intros w0 Hrun.
  - injection Hrun as <-. apply never_taken_back_refl.
  - cbn [run] in Hrun.
    destruct (step P API_BASE ev w0) as [w1|] eqn:Hstep; [|discriminate].
    eapply never_taken_back_trans;
      [exact (step_never_takes_back _ _ _ _ Hstep)|now apply IH].
Qed.

(** *** The connectivity flag *)

Lemma count_live_pos (i : nat) (ss : list ReadyState) :
  is_closed (nth i ss CLOSED) = false -> (1 <= count_live ss)%nat.
Proof. intros H. rewrite (count_live_update_closed i ss H). lia. Qed.

Lemma step_connected_live (API_BASE : string) (ev : Event) (w w' : World) :
  step P API_BASE ev w = Some w' ->
  (isConnected (state w) = true -> (1 <= live w)%nat) ->
  isConnected (state w') = true -> (1 <= live w')%nat.
Proof.
  unfold step. destruct ev as [ws|ws parsed|ws|ws|i|o|o|].
  - unfold readyState.
    destruct (nth ws (sockets w) CLOSED) eqn:Hs; try discriminate.
    intros [= <-] _ _. rewrite live_count.
    cbn [onopen setState sockets set_sockets].
    rewrite count_live_update_same by now rewrite Hs.
    apply (count_live_pos ws). now rewrite Hs.
  - destruct (readyState w ws); try discriminate. intros [= <-] Hinv.
    destruct (onmessage_state parsed w) as (_ & ->).
    destruct (onmessage_frame P parsed w) as (Hs & _).
    rewrite !live_count, Hs. exact Hinv.
  - destruct (is_closed (readyState w ws)); [discriminate|].
    intros [= <-] Hinv. exact Hinv.
  - destruct (is_closed (readyState w ws)); [discriminate|].
    intros [= <-] _ H. discriminate H.
  - destruct (i <? List.length (timers w))%nat; [|discriminate].
    intros [= <-] Hinv.
    destruct (connectWebSocket_state (ApiConfig.WS_URL API_BASE)
                (set_timers (remove_nth i (timers w)) w)) as (-> & _ & Hl).
    intros H. specialize (Hinv H).
    change (live (set_timers (remove_nth i (timers w)) w)) with (live w) in Hl.
    lia.
  - destruct (historicalPending w); [|discriminate]. intros [= <-] Hinv.
    destruct (fetchHistoricalData_state o (set_historicalPending false w))
      as (_ & ->).
    destruct (fetchHistoricalData_frame P o (set_historicalPending false w))
      as (Hs & _).
    rewrite !live_count, Hs. exact Hinv.
  - destruct (posted w); [|discriminate]. intros [= <-] Hinv. exact Hinv.
  - intros [= <-] Hinv. unfold cleanup.
    destruct (wsRef w) as [ws|]; [|exact Hinv].
    intros H. specialize (Hinv H). rewrite !live_count in *.
    cbn [sockets set_sockets].
    rewrite count_live_update_same; [exact Hinv|].
    now destruct (nth ws (sockets w) CLOSED).
Qed.

(** X13.  In every world a mounted hook can reach, the connectivity flag
    is set only while some socket has not closed yet. *)
Theorem X13_connected_only_with_live_socket
  (API_BASE : string) (evs : list Event) (w : World) :
  run P API_BASE evs (mount P API_BASE) = Some w ->
  isConnected (state w) = true -> (1 <= live w)%nat.
Proof.
  assert (Hgen : forall w0,
             run P API_BASE evs w0 = Some w ->
             (isConnected (state w0) = true -> (1 <= live w0)%nat) ->
             isConnected (state w) = true -> (1 <= live w)%nat).
  { induction evs as [|ev rest IH]; intros w0 Hrun Hinv.
    - now injection Hrun as <-.
    - cbn [run] in Hrun.
      destruct (step P API_BASE ev w0) as [w1|] eqn:Hstep; [|discriminate].
      apply (IH w1 Hrun). exact (step_connected_live _ _ _ _ Hstep Hinv). }
  intros Hrun. apply (Hgen _ Hrun).
  destruct (connectWebSocket_state (ApiConfig.WS_URL API_BASE)
              (checkConfig API_BASE (ApiConfig.WS_URL API_BASE) initialWorld))
    as (Hs & _).
  assert (Hfalse : isConnected
                     (state (checkConfig API_BASE (ApiConfig.WS_URL API_BASE)
                               initialWorld)) = false)
    by (unfold checkConfig; now destruct (_ || _)).
  destruct (mount_shape P API_BASE) as [->| ->];
    cbn [state set_historicalPending]; rewrite Hs, Hfalse; discriminate.
Qed.

(** *** The hook without a configured endpoint *)

(** X14.  With an empty base endpoint the hook reports the
    configuration error, stops loading, opens no socket and sends no
    request, and no event can change that: every world it can reach is
    the one it mounted in. *)
Theorem X14_unconfigured_hook_stays_put (evs : list Event) (w : World) :
  run P "" evs (mount P "") = Some w ->
  w = mount P ""
  /\ error (state w) = Some ConfigError
  /\ loading (state w) = false
  /\ published w = None
  /\ sockets w = [] /\ timers w = []
  /\ historicalPending w = false /\ posted w = None.
Proof.
  intros Hrun.
  assert (Hw : w = mount P "").
  { revert Hrun. induction evs as [|ev rest IH]; intros Hrun.
    - now injection Hrun as <-.
    - cbn [run] in Hrun.
      destruct (step P "" ev (mount P "")) as [w1|] eqn:Hstep;
        [|discriminate].
      assert (w1 = mount P "") as ->; [|now apply IH].
      destruct ev as [ws|ws parsed|ws|ws|i|o|o|];
        try (destruct ws; discriminate Hstep);
        try discriminate Hstep.
      now injection Hstep as <-. }
  subst w. repeat split.
Qed.

(** *** The published data and the buffer *)

Lemma step_published (API_BASE : string) (ev : Event) (w w' : World) :
  step P API_BASE ev w = Some w' ->
  (published w = None \/ published w = Some (buffer w)) ->
  published w' = None \/ published w' = Some (buffer w').
Proof.
  unfold step. destruct ev as [ws|ws parsed|ws|ws|i|o|o|].
  - destruct (readyState w ws); try discriminate. now intros [= <-].
  - destruct (readyState w ws); try discriminate. intros [= <-] Hinv.
    unfold onmessage. destruct parsed as [v|x]; [|exact Hinv].
    destruct (is_connection v) eqn:Hc; [exact Hinv|].
    destruct (gaitEntry P v (ticks w)) as [[e|x] k] eqn:He; [|exact Hinv].
    destruct (onmessage_accepted P v e k w Hc He) as (_ & Hp & _).
    unfold onmessage in Hp. rewrite Hc, He in Hp. now right.
  - destruct (is_closed (readyState w ws)); [discriminate|]. now intros [= <-].
  - destruct (is_closed (readyState w ws)); [discriminate|]. now intros [= <-].
  - destruct (i <? List.length (timers w))%nat; [|discriminate].
    intros [= <-].
    destruct (connectWebSocket_state (ApiConfig.WS_URL API_BASE)
                (set_timers (remove_nth i (timers w)) w)) as (_ & -> & _).
    destruct (connectWebSocket_frame P (ApiConfig.WS_URL API_BASE)
                (set_timers (remove_nth i (timers w)) w)) as (_ & _ & ->).
    exact (fun H => H).
  - destruct (historicalPending w); [|discriminate]. intros [= <-] Hinv.
    unfold fetchHistoricalData_resolved.
    match goal with
    | |- context [fetchMLGaitScore_request P (buffer ?x) ?x] => set (w1 := x)
    end.
    destruct (fetchMLGaitScore_request_view (buffer w1) w1) as (-> & -> & _).
    subst w1.
    destruct o as [e|[|] status [result|e]]; try exact Hinv;
      try (right; unfold catch_historical;
           now rewrite buffer_install_empty, published_install_empty).
    destruct (envelope P result _) as [[[mapped|]|e] k]; right.
    + now rewrite buffer_install, published_install.
    + now rewrite buffer_install_empty, published_install_empty.
    + unfold catch_historical.
      now rewrite buffer_install_empty, published_install_empty.
  - destruct (posted w); [|discriminate]. now intros [= <-].
  - intros [= <-]. unfold cleanup. now destruct (wsRef w).
Qed.

(** X15.  In every world a mounted hook can reach, the data the
    consumer sees, when there is some, has the contents of the rolling
    buffer and at most twenty records. *)
Theorem X15_published_is_bounded_buffer
  (API_BASE : string) (evs : list Event) (w : World)
  (d : list GaitDataEntry) :
  run P API_BASE evs (mount P API_BASE) = Some w ->
  published w = Some d ->
  d = buffer w /\ (List.length d <= 20)%nat.
Proof.
  intros Hrun Hd.
  assert (Hgen : forall w0,
             run P API_BASE evs w0 = Some w ->
             (published w0 = None \/ published w0 = Some (buffer w0)) ->
             published w = None \/ published w = Some (buffer w)).
  { clear Hrun. induction evs as [|ev rest IH]; intros w0 Hrun Hinv.
    - now injection Hrun as <-.
    - cbn [run] in Hrun.
      destruct (step P API_BASE ev w0) as [w1|] eqn:Hstep; [|discriminate].
      apply (IH w1 Hrun). exact (step_published _ _ _ _ Hstep Hinv). }
  destruct (Hgen _ Hrun) as [Hn|Hs].
  - left.
    destruct (mount_shape P API_BASE) as [->| ->];
      [|change (published (set_historicalPending true ?x))
          with (published x)];
      destruct (connectWebSocket_state (ApiConfig.WS_URL API_BASE)
                  (checkConfig API_BASE (ApiConfig.WS_URL API_BASE)
                     initialWorld)) as (_ & -> & _);
      unfold checkConfig; now destruct (_ || _).
  - rewrite Hn in Hd. discriminate.
  - rewrite Hs in Hd. injection Hd as <-. split; [reflexivity|].
    apply (reachable_invariant P API_BASE evs w Hrun).
Qed.

(** *** Teardown *)

Lemma length_update {A : Type} (i : nat) (f : A -> A) (l : list A) :
  List.length (update i f l) = List.length l.
Proof.
  revert i. induction l as [|x rest IH]; intros [|i]; cbn; auto.
Qed.

Lemma nth_update_same {A : Type} (i : nat) (f : A -> A) (l : list A) (d : A) :
  (i < List.length l)%nat -> nth i (update i f l) d = f (nth i l d).
Proof.
  revert i. induction l as [|x rest IH]; intros [|i] Hi; cbn in *;
    try lia; [reflexivity|apply IH; lia].
Qed.

Lemma nth_update_other {A : Type}
  (i j : nat) (f : A -> A) (l : list A) (d : A) :
  i <> j -> nth j (update i f l) d = nth j l d.
Proof.
  revert i j. induction l as [|x rest IH]; intros [|i] [|j] Hne; cbn;
    try reflexivity; try lia. apply IH. lia.
Qed.

Lemma update_update {A : Type} (i : nat) (f g : A -> A) (l : list A) :
  update i f (update i g l) = update i (fun x => f (g x)) l.
Proof.
  revert i. induction l as [|x rest IH]; intros [|i]; cbn; try reflexivity.
  now rewrite IH.
Qed.

Lemma live_index_in_range (i : nat) (ss : list ReadyState) :
  is_closed (nth i ss CLOSED) = false -> (i < List.length ss)%nat.
Proof.
  intros H. destruct (Nat.lt_ge_cases i (List.length ss)) as [Hlt|Hge];
    [exact Hlt|].
  rewrite nth_overflow in H by exact Hge. discriminate H.
Qed.

Lemma count_live_zero (ss : list ReadyState) (i : nat) :
  count_live ss = 0%nat -> nth i ss CLOSED = CLOSED.
Proof.
  intros H0. destruct (is_closed (nth i ss CLOSED)) eqn:Hc.
  - now destruct (nth i ss CLOSED).
  - pose proof (count_live_pos i ss Hc). lia.
Qed.

Lemma last_index_update (i : nat) (f : ReadyState -> ReadyState)
  (ss : list ReadyState) :
  last_index (update i f ss) = last_index ss.
Proof.
  unfold last_index. rewrite length_update.
  destruct ss as [|s rest]; destruct i; reflexivity.
Qed.

Lemma last_index_snoc (ss : list ReadyState) (s : ReadyState) :
  last_index (ss ++ [s])%list = Some (List.length ss).
Proof.
  unfold last_index.
  destruct ss as [|s0 rest]; [reflexivity|].
  cbn [app List.length]. rewrite length_app. cbn [List.length].
  f_equal. lia.
Qed.

Lemma current_is_last_update
  (ws : nat) (f : ReadyState -> ReadyState) (w : World) :
  current_is_last w ->
  (forall i, (S i < List.length (sockets w))%nat -> i = ws ->
             f CLOSED = CLOSED) ->
  current_is_last (set_sockets (update ws f (sockets w)) w).
Proof.
  intros [Href Hold] Hf. split; cbn [wsRef sockets set_sockets].
  - now rewrite last_index_update.
  - rewrite length_update. intros i Hi.
    destruct (Nat.eq_dec ws i) as [->|Hne].
    + rewrite nth_update_same by lia. rewrite (Hold i Hi).
      now apply (Hf i).
    + rewrite nth_update_other by exact Hne. now apply Hold.
Qed.

Lemma onmessage_wsRef (parsed : Result Value) (w : World) :
  wsRef (onmessage P parsed w) = wsRef w.
Proof.
  unfold onmessage. destruct parsed as [v|x]; [|reflexivity].
  destruct (is_connection v); [reflexivity|].
  destruct (gaitEntry P v (ticks w)) as [[e|x] k]; [|reflexivity].
  cbv zeta. now destruct (20 <? _)%nat.
Qed.

Lemma fetchHistoricalData_wsRef (o : FetchOutcome) (w : World) :
  wsRef (fetchHistoricalData_resolved P o w) = wsRef w.
Proof.
  unfold fetchHistoricalData_resolved, fetchMLGaitScore_request.
  destruct (features P _ _) as [[fs|x] k0]; cbn [wsRef set_posted set_ticks];
    (destruct o as [e|[|] status [result|e]]; try reflexivity;
     now destruct (envelope P result (ticks w)) as [[[mapped|]|e] k]).
Qed.

Lemma current_is_last_frame (w w' : World) :
  sockets w' = sockets w -> wsRef w' = wsRef w ->
  current_is_last w -> current_is_last w'.
Proof. unfold current_is_last. now intros -> ->. Qed.

Lemma step_current_is_last (API_BASE : string) (ev : Event) (w w' : World) :
  step P API_BASE ev w = Some w' ->
  (live w + List.length (timers w) <= 1)%nat ->
  current_is_last w -> current_is_last w'.
Proof.
  unfold step. destruct ev as [ws|ws parsed|ws|ws|i|o|o|]; intros Hstep Hp Hc.
  - unfold readyState in Hstep.
    destruct (nth ws (sockets w) CLOSED) eqn:Hs; try discriminate.
    injection Hstep as <-.
    apply (current_is_last_frame
             (set_sockets (update ws (fun _ => OPEN) (sockets w)) w));
      [reflexivity|reflexivity|].
    apply current_is_last_update; [exact Hc|].
    intros i Hi ->. destruct Hc as [_ Hold].
    rewrite (Hold ws Hi) in Hs. discriminate Hs.
  - destruct (readyState w ws); try discriminate. injection Hstep as <-.
    apply (current_is_last_frame w); [|apply onmessage_wsRef|exact Hc].
    apply (onmessage_frame P parsed w).
  - destruct (is_closed (readyState w ws)); [discriminate|].
    injection Hstep as <-. exact Hc.
  - destruct (is_closed (readyState w ws)); [discriminate|].
    injection Hstep as <-.
    apply (current_is_last_frame
             (set_sockets (update ws (fun _ => CLOSED) (sockets w)) w));
      [reflexivity|reflexivity|].
    now apply current_is_last_update.
  - destruct (Nat.ltb_spec i (List.length (timers w))) as [Hi|]; [|discriminate].
    injection Hstep as <-.
    unfold connectWebSocket.
    destruct (String.eqb _ ""); [exact Hc|].
    destruct (WebSocket_accepts P _); [|exact Hc].
    assert (Hdead : count_live (sockets w) = 0%nat)
      by (rewrite live_count in Hp; lia).
    split; cbn [wsRef sockets set_wsRef set_sockets set_timers].
    + now rewrite last_index_snoc.
    + rewrite length_app. cbn [List.length]. intros j Hj.
      rewrite app_nth1 by lia. now apply count_live_zero.
  - destruct (historicalPending w); [|discriminate]. injection Hstep as <-.
    apply (current_is_last_frame w);
      [|apply (fetchHistoricalData_wsRef o (set_historicalPending false w))
       |exact Hc].
    apply (fetchHistoricalData_frame P o (set_historicalPending false w)).
  - destruct (posted w); [|discriminate]. injection Hstep as <-. exact Hc.
  - injection Hstep as <-. unfold cleanup.
    destruct (wsRef w) as [ws|] eqn:Href; [|exact Hc].
    apply current_is_last_update; [exact Hc|].
    intros i Hi ->. reflexivity.
Qed.

Lemma mount_current_is_last (API_BASE : string) :
  current_is_last (mount P API_BASE).
Proof.
  assert (H1 : forall w, sockets w = [] -> wsRef w = None ->
                         current_is_last (connectWebSocket P
                                            (ApiConfig.WS_URL API_BASE) w)).
  { intros w Hs Hr. unfold connectWebSocket.
    destruct (String.eqb _ "");
      [|destruct (WebSocket_accepts P _)];
      split; cbn [wsRef sockets set_wsRef set_sockets];
      rewrite ?Hs, ?Hr; try reflexivity; cbn; intros i Hi; lia. }
  assert (H0 : current_is_last
                 (connectWebSocket P (ApiConfig.WS_URL API_BASE)
                    (checkConfig API_BASE (ApiConfig.WS_URL API_BASE)
                       initialWorld)))
    by (apply H1; unfold checkConfig; now destruct (_ || _)).
  now destruct (mount_shape P API_BASE) as [->| ->].
Qed.

Lemma reachable_current_is_last
  (API_BASE : string) (evs : list Event) (w : World) :
  run P API_BASE evs (mount P API_BASE) = Some w ->
  (live w + List.length (timers w) <= 1)%nat /\ current_is_last w.
Proof.
  assert (Hgen : forall w0,
             run P API_BASE evs w0 = Some w ->
             (live w0 + List.length (timers w0) <= 1)%nat ->
             current_is_last w0 ->
             (live w + List.length (timers w) <= 1)%nat
             /\ current_is_last w).
  { induction evs as [|ev rest IH]; intros w0 Hrun Hp Hc.
    - injection Hrun as <-. now split.
    - cbn [run] in Hrun.
      destruct (step P API_BASE ev w0) as [w1|] eqn:Hstep; [|discriminate].
      apply (IH w1 Hrun).
      + pose proof (step_pending P _ _ _ _ Hstep). lia.
      + exact (step_current_is_last _ _ _ _ Hstep Hp Hc). }
  intros Hrun. apply (Hgen _ Hrun).
  - apply (mount_pending P API_BASE).
  - apply mount_current_is_last.
Qed.

(** X16.  In every world a mounted hook can reach, the cleanup leaves
    no socket connecting or open: the current socket is closing or
    closed, and every earlier one has closed already. *)
Theorem X16_cleanup_leaves_no_socket_open
  (API_BASE : string) (evs : list Event) (w : World) :
  run P API_BASE evs (mount P API_BASE) = Some w ->
  forallb is_closing_or_closed (sockets (cleanup w)) = true.
Proof.
  intros Hrun.
  destruct (reachable_current_is_last API_BASE evs w Hrun) as (_ & Href & Hold).
  unfold cleanup. rewrite Href.
  destruct (sockets w) as [|s0 rest] eqn:Hss;
    [cbn [last_index]; now rewrite Hss|].
  cbn [last_index sockets set_sockets]. rewrite ?Hss.
  set (ss := s0 :: rest) in *.
  apply forallb_forall. intros s Hin.
  apply (In_nth _ _ CLOSED) in Hin as (j & Hj & <-).
  rewrite length_update in Hj.
  destruct (Nat.eq_dec (List.length ss - 1) j) as [<-|Hne].
  - rewrite nth_update_same by (cbn in *; lia).
    now destruct (nth _ ss CLOSED).
  - rewrite nth_update_other by exact Hne.
    rewrite Hold by lia. reflexivity.
Qed.

(** X17.  The cleanup does not stop the reconnection.  From every
    reachable world whose current socket has not closed, with an
    endpoint the platform accepts, the cleanup, the close event it
    causes and the timer that event sets lead to a world with a new
    socket connecting, held in [wsRef.current]. *)
Theorem X17_reconnect_survives_teardown
  (API_BASE : string) (evs : list Event) (w : World) (ws : nat) :
  run P API_BASE evs (mount P API_BASE) = Some w ->
  wsRef w = Some ws ->
  is_closed (readyState w ws) = false ->
  String.eqb (ApiConfig.WS_URL API_BASE) "" = false ->
  WebSocket_accepts P (ApiConfig.WS_URL API_BASE) = true ->
  exists w',
    run P API_BASE [EvUnmount; EvClose ws; EvTimer 0%nat] w = Some w'
    /\ wsRef w' = Some (List.length (sockets w))
    /\ readyState w' (List.length (sockets w)) = CONNECTING
    /\ live w' = 1%nat.
Proof.
  intros Hrun Href Hlive Hurl Hacc.
  destruct (reachable_current_is_last API_BASE evs w Hrun) as (Hp & _).
  unfold readyState in Hlive.
  pose proof (live_index_in_range ws _ Hlive) as Hws.
  pose proof (count_live_update_closed ws _ Hlive) as Hcount.
  rewrite live_count in Hp.
  assert (Ht : timers w = [])
    by (destruct (timers w); [reflexivity|cbn in Hp; lia]).
  assert (Hdead : count_live (update ws (fun _ => CLOSED) (sockets w)) = 0%nat)
    by lia.
  cbn [run step]. unfold cleanup. rewrite Href.
  unfold readyState at 1. cbn [sockets set_sockets].
  rewrite nth_update_same by exact Hws.
  assert (Hcl : is_closed (close (nth ws (sockets w) CLOSED)) = false)
    by (destruct (nth ws (sockets w) CLOSED); [reflexivity..|discriminate Hlive]).
  rewrite Hcl.
  cbn [onclose setState set_timers set_sockets timers sockets].
  rewrite Ht. cbn [app List.length Nat.ltb Nat.leb remove_nth].
  unfold connectWebSocket. rewrite Hurl, Hacc.
  eexists. split; [reflexivity|].
  unfold readyState. rewrite live_count.
  cbn [wsRef set_wsRef set_sockets sockets set_timers onclose setState].
  rewrite update_update, !length_update.
  split; [reflexivity|]. split.
  - rewrite app_nth2 by (rewrite length_update; lia).
    rewrite length_update, Nat.sub_diag. reflexivity.
  - rewrite count_live_app, Hdead. reflexivity.
Qed.

End HookMore.

(* ================================================================== *)
(** ** The further statements at concrete inputs *)
(* ================================================================== *)

Section MoreInstances.
Import JS Hook.

(** X3 with no endpoint in the environment. *)
Lemma X3_witness_default_base :
  sockets (mount examplePlatform (ApiConfig.API_BASE None)) = [CONNECTING]
  /\ wsRef (mount examplePlatform (ApiConfig.API_BASE None)) = Some 0%nat
  /\ historicalPending (mount examplePlatform (ApiConfig.API_BASE None))
     = true.
Proof.
  apply (X3_fallback_base_is_configured examplePlatform None).
  reflexivity.
Defined.

(** X4 on a handshake message. *)
Lemma X4_witness_handshake :
  is_connection (VObj [("message", VStr "hello"); ("type", VStr "connection")])
  = true.
Proof.
  apply (proj2 (X4_handshake_test_characterised _)).
  eexists. split; reflexivity.
Defined.

(** X5 on the payload [42], received by a freshly mounted hook. *)
Lemma X5_witness_number_payload :
  buffer (onmessage examplePlatform (Ok (VNum (ofZ 42))) mounted)
  = [zeroEntry (ofZ 1700000000000)].
Proof.
  rewrite (proj2 (X5_non_object_payload_is_blank_record examplePlatform
                    (VNum (ofZ 42)) mounted
                    ltac:(intros fields H; discriminate H)
                    ltac:(discriminate) ltac:(discriminate)
                    ltac:(apply Nat.leb_le; reflexivity))).
  vm_compute. reflexivity.
Defined.

(** X6 on the payload [null]. *)
Lemma X6_witness_null_payload :
  onmessage examplePlatform (Ok VNull) mounted = mounted.
Proof.
  apply X6_throwing_payload_dropped. left. reflexivity.
Defined.

(** X7 on twenty-five records streamed oldest first: the buffer holds
    records 25 down to 6. *)
Lemma X7_witness_25_streamed :
  map cadence
    (buffer (deliver examplePlatform (map Ok (oldest_first 25)) mounted))
  = map (fun i => VNum (ofZ (Z.of_nat i))) (rev (seq 6 20)).
Proof.
  assert (H : exists entries k,
             mapM (gaitEntry examplePlatform) (oldest_first 25) (ticks mounted)
             = (Ok entries, k)
             /\ map cadence (firstn 20 (rev entries ++ buffer mounted))
                = map (fun i => VNum (ofZ (Z.of_nat i))) (rev (seq 6 20)))
    by (eexists _, _; split; vm_compute; reflexivity).
  destruct H as (entries & k & Hm & Hc).
  rewrite (X7_stream_keeps_latest_20 examplePlatform (oldest_first 25)
             entries k mounted).
  - exact Hc.
  - apply Nat.leb_le. reflexivity.
  - vm_compute. reflexivity.
  - exact Hm.
Defined.

(** X8 on three records. *)
Lemma X8_witness_3_records :
  map cadence
    (buffer (fetchHistoricalData_resolved examplePlatform
               (success_envelope (oldest_first 3)) mounted))
  = [VNum (ofZ 3); VNum (ofZ 2); VNum (ofZ 1)].
Proof.
  assert (H : exists entries k,
             mapM (mapItem examplePlatform) (oldest_first 3) (ticks mounted)
             = (Ok entries, k)
             /\ map cadence (rev entries)
                = [VNum (ofZ 3); VNum (ofZ 2); VNum (ofZ 1)])
    by (eexists _, _; split; vm_compute; reflexivity).
  destruct H as (entries & k & Hm & Hc).
  unfold success_envelope.
  rewrite (proj1 (X8_backfill_up_to_20 examplePlatform mounted 200
                    (oldest_first 3) entries k
                    ltac:(apply Nat.leb_le; reflexivity) Hm)).
  exact Hc.
Defined.

(** X9 on an array with a [null] item. *)
Lemma X9_witness_null_item :
  let w' := fetchHistoricalData_resolved examplePlatform
              (success_envelope [sample 1; VNull; sample 3]) mounted in
  error (state w') = Some (Caught TypeError) /\ buffer w' = []
  /\ loading (state w') = false.
Proof.
  cbv zeta. unfold success_envelope.
  destruct (X9_backfill_poisoned_by_null examplePlatform mounted 200
              (VArr [sample 1; VNull; sample 3]))
    as (Hl & Hb & _ & He).
  - reflexivity.
  - intros items [= <-]. right. left. reflexivity.
  - now split.
Defined.

(** X10 after a request that failed. *)
Lemma X10_witness_failed_request :
  posted (fetchHistoricalData_resolved examplePlatform
            (Rejected NetworkError) mounted)
  = Some defaultFeatures.
Proof.
  rewrite (X10_backfill_posts_features_of_buffer examplePlatform
             (Rejected NetworkError) mounted).
  - vm_compute. reflexivity.
  - vm_compute. reflexivity.
Defined.

(** X12 on a run in which the socket opens, the historical request
    fails and the socket reports an error. *)
Lemma X12_witness_failed_backfill :
  exists w,
    run examplePlatform exampleBase
      [EvOpen 0%nat; EvHistorical (Rejected NetworkError); EvError 0%nat]
      mounted = Some w
    /\ never_taken_back (state mounted) (state w).
Proof.
  eexists. split; [vm_compute; reflexivity|].
  apply (X12_nothing_taken_back examplePlatform exampleBase
           [EvOpen 0%nat; EvHistorical (Rejected NetworkError); EvError 0%nat]).
  vm_compute. reflexivity.
Defined.

(** X13 once the first socket has opened. *)
Lemma X13_witness_opened :
  exists w,
    run examplePlatform exampleBase [EvOpen 0%nat] mounted = Some w
    /\ isConnected (state w) = true /\ (1 <= live w)%nat.
Proof.
  eexists. split; [vm_compute; reflexivity|].
  split; [reflexivity|].
  apply (X13_connected_only_with_live_socket examplePlatform exampleBase
           [EvOpen 0%nat]); vm_compute; reflexivity.
Defined.

(** X14 on a hook that is unmounted twice. *)
Lemma X14_witness_unmounted :
  exists w,
    run examplePlatform "" [EvUnmount; EvUnmount] (mount examplePlatform "")
    = Some w
    /\ error (state w) = Some ConfigError /\ loading (state w) = false.
Proof.
  eexists. split; [vm_compute; reflexivity|].
  destruct (X14_unconfigured_hook_stays_put examplePlatform
              [EvUnmount; EvUnmount] (mount examplePlatform ""))
    as (_ & He & Hl & _); [vm_compute; reflexivity|].
  split; [exact He|exact Hl].
Defined.

(** X15 once the first socket has opened and delivered a record. *)
Lemma X15_witness_one_record :
  exists w,
    run examplePlatform exampleBase
      [EvOpen 0%nat; EvMessage 0%nat (Ok (sample 1))] mounted = Some w
    /\ published w = Some [normalized (sample 1) (ofZ 1)]
    /\ [normalized (sample 1) (ofZ 1)] = buffer w.
Proof.
  eexists. split; [vm_compute; reflexivity|].
  split; [vm_compute; reflexivity|].
  apply (X15_published_is_bounded_buffer examplePlatform exampleBase
           [EvOpen 0%nat; EvMessage 0%nat (Ok (sample 1))]);
    vm_compute; reflexivity.
Defined.

(** X16 once the first socket has opened. *)
Lemma X16_witness_opened :
  exists w,
    run examplePlatform exampleBase [EvOpen 0%nat] mounted = Some w
    /\ forallb is_closing_or_closed (sockets (cleanup w)) = true.
Proof.
  eexists. split; [vm_compute; reflexivity|].
  apply (X16_cleanup_leaves_no_socket_open examplePlatform exampleBase
           [EvOpen 0%nat]).
  vm_compute. reflexivity.
Defined.

(** X17 once the first socket has opened: after the cleanup a second
    socket is connecting. *)
Lemma X17_witness_opened :
  exists w w',
    run examplePlatform exampleBase [EvOpen 0%nat] mounted = Some w
    /\ run examplePlatform exampleBase
         [EvUnmount; EvClose 0%nat; EvTimer 0%nat] w = Some w'
    /\ readyState w' 1 = CONNECTING /\ live w' = 1%nat.
Proof.
  pose (w := onopen (set_sockets
                       (update 0 (fun _ => OPEN) (sockets mounted)) mounted)).
  assert (Hw : run examplePlatform exampleBase [EvOpen 0%nat] mounted = Some w)
    by (vm_compute; reflexivity).
  destruct (X17_reconnect_survives_teardown examplePlatform exampleBase
              [EvOpen 0%nat] w 0%nat Hw)
    as (w' & Hrun & _ & Hready & Hlive);
    [reflexivity..|].
  exists w, w'. split; [exact Hw|]. split; [exact Hrun|].
  split; [exact Hready|exact Hlive].
Defined.

End MoreInstances.
